(** * Moving-average crossover backtest: a shallow embedding

    The embedded program is [trading_strategy.py]: the class
    [MovingAverageCrossover] with its methods [calculate_signals],
    [backtest] and [calculate_metrics], and the pandas / numpy column
    operations those methods call ([rolling(..).mean()], [shift], [diff],
    [pct_change], [cumprod], [cummax], [min], [mean], [std]).

    Numbers.  A float64 is modelled by [float64]: a finite value is an
    exact real, and the three special values of IEEE 754 (the two
    infinities and NaN) are kept, because the program relies on them: NaN
    is how pandas writes "undefined", and a float division by zero gives
    an infinity or NaN instead of raising.  Reals are used, not
    rationals, because the program takes a square root and a real power.
    Rounding error, overflow and the sign of zero are not modelled: the
    arithmetic on finite values, the sliding sum of the rolling mean
    included, is exact.  A statement that would hold of exact arithmetic
    only is therefore not made; where a property needs the computed
    numbers to be finite, that is a hypothesis of the theorem, and the
    value of a column is stated through the operations of the code
    ([fmul], [fdiv], ...) rather than as a closed formula over the reals.
    The [Signal] column is an integer column and is modelled by [list Z].

    Dates are timestamps in microseconds; [__init__] is modelled with the
    OverflowError its date subtraction can raise. *)

From Stdlib Require Import Reals Lra Lia List ZArith Bool Arith.
Import ListNotations.

Open Scope R_scope.

(** ** float64 *)

Inductive float64 : Type :=
| Fin (x : R)
| PInf
| NInf
| NaN.

Definition isna (a : float64) : bool :=
  match a with NaN => true | _ => false end.

Definition notna (a : float64) : bool := negb (isna a).

Definition of_int (z : Z) : float64 := Fin (IZR z).

Definition fadd (a b : float64) : float64 :=
  match a, b with
  | NaN, _ | _, NaN => NaN
  | Fin x, Fin y => Fin (x + y)
  | PInf, NInf | NInf, PInf => NaN
  | PInf, _ | _, PInf => PInf
  | NInf, _ | _, NInf => NInf
  end.

Definition fsub (a b : float64) : float64 :=
  match a, b with
  | NaN, _ | _, NaN => NaN
  | Fin x, Fin y => Fin (x - y)
  | PInf, PInf | NInf, NInf => NaN
  | PInf, _ | _, NInf => PInf
  | NInf, _ | _, PInf => NInf
  end.

(** An infinity scaled by the finite value [x]: the sign follows the sign
    of [x], and [inf * 0] is NaN. *)
Definition scale_inf (positive : bool) (x : R) : float64 :=
  if Rlt_dec 0 x then (if positive then PInf else NInf)
  else if Rlt_dec x 0 then (if positive then NInf else PInf)
  else NaN.

Definition fmul (a b : float64) : float64 :=
  match a, b with
  | NaN, _ | _, NaN => NaN
  | Fin x, Fin y => Fin (x * y)
  | PInf, Fin x | Fin x, PInf => scale_inf true x
  | NInf, Fin x | Fin x, NInf => scale_inf false x
  | PInf, PInf | NInf, NInf => PInf
  | PInf, NInf | NInf, PInf => NInf
  end.

(** Division never raises: a finite non-zero value over zero is an
    infinity, zero over zero is NaN. *)
Definition fdiv (a b : float64) : float64 :=
  match a, b with
  | NaN, _ | _, NaN => NaN
  | Fin x, Fin y =>
      if Req_dec_T y 0 then
        (if Rlt_dec 0 x then PInf else if Rlt_dec x 0 then NInf else NaN)
      else Fin (x / y)
  | Fin _, PInf | Fin _, NInf => Fin 0
  | PInf, Fin y => if Rlt_dec y 0 then NInf else PInf
  | NInf, Fin y => if Rlt_dec y 0 then PInf else NInf
  | PInf, PInf | PInf, NInf | NInf, PInf | NInf, NInf => NaN
  end.

(** [a < b]; every comparison with NaN is false. *)
Definition flt (a b : float64) : bool :=
  match a, b with
  | NaN, _ | _, NaN => false
  | Fin x, Fin y => if Rlt_dec x y then true else false
  | Fin _, PInf => true
  | Fin _, NInf => false
  | PInf, _ => false
  | NInf, NInf => false
  | NInf, _ => true
  end.

Definition fgt (a b : float64) : bool := flt b a.


(** [a != b]; true as soon as one side is NaN. *)
Definition fne (a b : float64) : bool :=
  match a, b with
  | NaN, _ | _, NaN => true
  | Fin x, Fin y => if Req_dec_T x y then false else true
  | PInf, PInf | NInf, NInf => false
  | _, _ => true
  end.

(** [np.maximum] and [np.minimum]: NaN propagates. *)
Definition fmaximum (a b : float64) : float64 :=
  match a, b with
  | NaN, _ | _, NaN => NaN
  | _, _ => if flt a b then b else a
  end.

Definition fminimum (a b : float64) : float64 :=
  match a, b with
  | NaN, _ | _, NaN => NaN
  | _, _ => if flt b a then b else a
  end.

Definition fsqrt (a : float64) : float64 :=
  match a with
  | Fin x => if Rlt_dec x 0 then NaN else Fin (sqrt x)
  | PInf => PInf
  | NInf | NaN => NaN
  end.

(** The exponent [y] is an integer when it equals its integer part. *)
Definition is_integer (y : R) : bool :=
  if Req_dec_T y (IZR (Int_part y)) then true else false.

Definition is_odd_integer (y : R) : bool :=
  is_integer y && Z.odd (Int_part y).

(** [a ** y] for a float64 base and a finite exponent (numpy's [power]):
    anything to the power 0 is 1; a positive base uses exp and log; a
    negative base has a real power only at an integer exponent. *)
Definition fpow (a : float64) (y : R) : float64 :=
  if Req_dec_T y 0 then Fin 1
  else
    match a with
    | NaN => NaN
    | Fin x =>
        if Rlt_dec 0 x then Fin (Rpower x y)
        else if Req_dec_T x 0 then (if Rlt_dec 0 y then Fin 0 else PInf)
        else if is_integer y then
          (if is_odd_integer y then Fin (- Rpower (- x) y)
           else Fin (Rpower (- x) y))
        else NaN
    | PInf => if Rlt_dec 0 y then PInf else Fin 0
    | NInf =>
        if Rlt_dec 0 y then (if is_odd_integer y then NInf else PInf)
        else Fin 0
    end.

(** ** pandas columns

    A float column is a [list float64], an integer column a [list Z].
    Inside one frame all columns have the length of the index. *)

Definition column := list float64.

(** Element-wise binary operation on two columns of the same frame. *)
Definition map2 {A B C : Type} (f : A -> B -> C) (l1 : list A) (l2 : list B)
  : list C :=
  map (fun p => f (fst p) (snd p)) (combine l1 l2).

(** [Series.shift(1)]: every value moves one bar later, the first bar
    becomes NaN, the last value is dropped. *)
Definition shift (col : column) : column :=
  match col with
  | [] => []
  | _ :: _ => NaN :: removelast col
  end.

(** [Series.diff()] of an integer column: the result is a float column,
    [col - col.shift(1)], so its first entry is NaN. *)
Definition diff (col : list Z) : column :=
  let c := map of_int col in map2 fsub c (shift c).

(** [Series.pct_change()] of a column without missing values:
    [col / col.shift(1) - 1]. *)
Definition pct_change (col : column) : column :=
  map (fun q => fsub q (Fin 1)) (map2 fdiv col (shift col)).

Definition fillna (v : float64) (a : float64) : float64 :=
  if isna a then v else a.

(** [np.cumprod] / [np.maximum.accumulate]: the first output is the first
    input, every later output combines the previous output with the next
    input. *)
Fixpoint accumulate_from (f : float64 -> float64 -> float64) (acc : float64)
  (l : column) : column :=
  match l with
  | [] => []
  | x :: tl => let a := f acc x in a :: accumulate_from f a tl
  end.

Definition np_accumulate (f : float64 -> float64 -> float64) (l : column)
  : column :=
  match l with
  | [] => []
  | x :: tl => x :: accumulate_from f x tl
  end.

(** pandas' [na_accum_func] with [skipna=True]: missing entries are
    replaced by the neutral value [mask_a] before accumulating, and are
    put back as NaN in the result. *)
Definition na_accum_func (f : float64 -> float64 -> float64)
  (mask_a : float64) (col : column) : column :=
  map2 (fun orig r => if isna orig then NaN else r)
       col (np_accumulate f (map (fillna mask_a) col)).

Definition cumprod : column -> column := na_accum_func fmul (Fin 1).
Definition cummax : column -> column := na_accum_func fmaximum NInf.

Definition count_valid (col : column) : nat := length (filter notna col).

Definition fsum (col : column) : float64 := fold_left fadd col (Fin 0).

(** [Series.min()] with [skipna=True]: NaN is replaced by +inf, and the
    result is NaN when no valid entry exists. *)
Definition nanmin (col : column) : float64 :=
  if (count_valid col =? 0)%nat then NaN
  else
    match map (fillna PInf) col with
    | [] => NaN
    | x :: tl => fold_left fminimum tl x
    end.

(** [Series.mean()] with [skipna=True]. *)
Definition nanmean (col : column) : float64 :=
  let count := count_valid col in
  let the_sum := fsum (map (fillna (Fin 0)) col) in
  if (0 <? count)%nat then fdiv the_sum (Fin (INR count)) else NaN.

(** [Series.var()] with [skipna=True, ddof=1]: NaN when at most one valid
    entry exists. *)
Definition nanvar (col : column) : float64 :=
  let count := count_valid col in
  if (count <=? 1)%nat then NaN
  else
    let avg := fdiv (fsum (map (fillna (Fin 0)) col)) (Fin (INR count)) in
    let sqr :=
      map (fun x => if isna x then Fin 0
                    else let d := fsub avg x in fmul d d) col in
    fdiv (fsum sqr) (Fin (INR (count - 1))).

(** [Series.std()]. *)
Definition nanstd (col : column) : float64 := fsqrt (nanvar col).

(** [(col != 0).sum()]. *)
Definition count_nonzero (col : column) : nat :=
  length (filter (fun x => fne x (Fin 0)) col).

(** *** Rolling mean

    [Series.rolling(window=w).mean()] over a column of finite values, as
    pandas computes it: a sliding window [start i, end i) with a running
    sum and a running number of observations; values that leave the
    window are removed from the sum and values that enter are added
    (the compensated summation pandas uses against rounding error has
    no counterpart over the reals).  [min_periods] defaults to the
    window size. *)

Record roll_state : Type := { sum_x : R; nobs : nat }.

Definition roll_init : roll_state := {| sum_x := 0; nobs := 0 |}.

Definition add_mean (st : roll_state) (v : R) : roll_state :=
  {| sum_x := sum_x st + v; nobs := S (nobs st) |}.

Definition remove_mean (st : roll_state) (v : R) : roll_state :=
  {| sum_x := sum_x st - v; nobs := pred (nobs st) |}.

Definition calc_mean (minp : nat) (st : roll_state) : float64 :=
  if ((minp <=? nobs st) && (0 <? nobs st))%nat
  then Fin (sum_x st / INR (nobs st))
  else NaN.

(** Window bounds of bar [i]: [end = i + 1], [start = end - w] clipped
    at 0 (the subtraction on [nat] clips). *)
Definition window_start (w i : nat) : nat := (i + 1 - w)%nat.
Definition window_end (i : nat) : nat := (i + 1)%nat.

(** [values[s:e]]. *)
Definition slice (values : list R) (s e : nat) : list R :=
  firstn (e - s) (skipn s values).

Definition roll_step (w : nat) (values : list R) (i : nat) (st : roll_state)
  : roll_state :=
  let s := window_start w i in
  let e := window_end i in
  if ((i =? 0) || (window_end (i - 1) <=? s))%nat then
    fold_left add_mean (slice values s e) roll_init
  else
    let st1 :=
      fold_left remove_mean (slice values (window_start w (i - 1)) s) st in
    fold_left add_mean (slice values (window_end (i - 1)) e) st1.

Fixpoint roll_mean_from (w : nat) (values : list R) (i todo : nat)
  (st : roll_state) : column :=
  match todo with
  | O => []
  | S k =>
      let st' := roll_step w values i st in
      calc_mean w st' :: roll_mean_from w values (S i) k st'
  end.

Definition rolling_mean (w : nat) (values : list R) : column :=
  roll_mean_from w values 0 (length values) roll_init.

(** The windowed mean recomputed from scratch at every bar, as the
    specification words it: undefined while fewer than [w] bars have been
    observed, otherwise the arithmetic mean of the trailing [w] closes. *)
Definition Rsum (l : list R) : R := fold_right Rplus 0 l.

Definition naive_mean_at (w : nat) (values : list R) (t : nat) : float64 :=
  if (t + 1 <? w)%nat then NaN
  else Fin (Rsum (slice values (t + 1 - w) (t + 1)) / INR w).

Definition naive_rolling_mean (w : nat) (values : list R) : column :=
  map (naive_mean_at w values) (seq 0 (length values)).

(** ** The class [MovingAverageCrossover] *)

(** [self.data]: the [Close] column that the download supplies (finite
    prices) and the columns the methods add.  A column that has not been
    written yet is empty. *)
Record DataFrame : Type := {
  Close : list R;
  SMA_short : column;
  SMA_long : column;
  Signal : list Z;
  Position : column;
  Daily_Return : column;
  Strategy_Return : column;
  Buy_Hold_Return : column;
  Strategy_Cumulative : column;
  Buy_Hold_Value : column;
  Strategy_Value : column
}.

Definition frame_of_closes (closes : list R) : DataFrame :=
  {| Close := closes; SMA_short := []; SMA_long := []; Signal := [];
     Position := []; Daily_Return := []; Strategy_Return := [];
     Buy_Hold_Return := []; Strategy_Cumulative := [];
     Buy_Hold_Value := []; Strategy_Value := [] |}.

(** Dates are timestamps in microseconds; [(end - start).days] is the
    whole number of days of the difference (rounded down). *)
Definition microseconds_per_day : Z := 86400000000.

Definition timedelta_days (start_date end_date : Z) : Z :=
  ((end_date - start_date) / microseconds_per_day)%Z.

Record MovingAverageCrossover : Type := {
  short_window : nat;
  long_window : nat;
  initial_capital : R;
  start_date : Z;
  end_date : Z;
  data : DataFrame
}.

(** The object [__init__] builds when it returns: [end_date] defaults to
    the current time [now], [start_date] to five times 365 days before
    [end_date]. *)
Definition init (now : Z) (start_date end_date : option Z)
  (short_window long_window : nat) (initial_capital : R)
  : MovingAverageCrossover :=
  let e := match end_date with None => now | Some d => d end in
  let s := match start_date with
           | None => (e - 365 * 5 * microseconds_per_day)%Z
           | Some d => d
           end in
  {| short_window := short_window; long_window := long_window;
     initial_capital := initial_capital; start_date := s; end_date := e;
     data := frame_of_closes [] |}.

(** The earliest datetime, 0001-01-01 00:00, as a timestamp counted from
    1970-01-01: 719162 days before it. *)
Definition datetime_min : Z := (- 719162 * microseconds_per_day)%Z.

(** What a call of the constructor gives: the object, or the
    OverflowError of line 39. *)
Inductive construction : Type :=
| Constructed (self : MovingAverageCrossover)
| OverflowError.

(** [__init__] with its error path: when no start date is given,
    [end_date - timedelta(days=365*5)] raises OverflowError if the result
    would fall before the earliest datetime; otherwise the object is the
    one [init] describes. *)
Definition __init__ (now : Z) (start_date end_date : option Z)
  (short_window long_window : nat) (initial_capital : R) : construction :=
  let e := match end_date with None => now | Some d => d end in
  match start_date with
  | None =>
      if (e - 365 * 5 * microseconds_per_day <? datetime_min)%Z
      then OverflowError
      else Constructed
             (init now start_date end_date short_window long_window
                initial_capital)
  | Some _ =>
      Constructed
        (init now start_date end_date short_window long_window
           initial_capital)
  end.

Definition with_data (self : MovingAverageCrossover) (d : DataFrame)
  : MovingAverageCrossover :=
  {| short_window := short_window self; long_window := long_window self;
     initial_capital := initial_capital self;
     start_date := start_date self; end_date := end_date self;
     data := d |}.

(** [download_data], with the downloaded closes given. *)
Definition download_data (closes : list R) (self : MovingAverageCrossover)
  : MovingAverageCrossover :=
  with_data self (frame_of_closes closes).

(** [data.loc[mask, 'Signal'] = v]. *)
Definition loc_assign (mask : list bool) (v : Z) (col : list Z) : list Z :=
  map2 (fun (m : bool) old => if m then v else old) mask col.

(** The [Signal] column of lines 57-59: all 0, then 1 where the short
    average is above the long one, then -1 where it is below. *)
Definition signal_column (n : nat) (sma_short sma_long : column) : list Z :=
  let s0 := repeat 0%Z n in
  let s1 := loc_assign (map2 fgt sma_short sma_long) 1%Z s0 in
  loc_assign (map2 flt sma_short sma_long) (-1)%Z s1.

Definition calculate_signals (self : MovingAverageCrossover)
  : MovingAverageCrossover :=
  let d := data self in
  let sma_s := rolling_mean (short_window self) (Close d) in
  let sma_l := rolling_mean (long_window self) (Close d) in
  let sig := signal_column (length (Close d)) sma_s sma_l in
  with_data self
    {| Close := Close d; SMA_short := sma_s; SMA_long := sma_l;
       Signal := sig; Position := diff sig;
       Daily_Return := Daily_Return d;
       Strategy_Return := Strategy_Return d;
       Buy_Hold_Return := Buy_Hold_Return d;
       Strategy_Cumulative := Strategy_Cumulative d;
       Buy_Hold_Value := Buy_Hold_Value d;
       Strategy_Value := Strategy_Value d |}.

Definition backtest (self : MovingAverageCrossover) : MovingAverageCrossover :=
  let d := data self in
  let cap := Fin (initial_capital self) in
  let daily := pct_change (map Fin (Close d)) in
  let strat := map2 fmul daily (shift (map of_int (Signal d))) in
  let bh_cum := cumprod (map (fadd (Fin 1)) daily) in
  let st_cum := cumprod (map (fadd (Fin 1)) strat) in
  with_data self
    {| Close := Close d; SMA_short := SMA_short d; SMA_long := SMA_long d;
       Signal := Signal d; Position := Position d;
       Daily_Return := daily;
       Strategy_Return := strat;
       Buy_Hold_Return := bh_cum;
       Strategy_Cumulative := st_cum;
       Buy_Hold_Value := map (fmul cap) bh_cum;
       Strategy_Value := map (fmul cap) st_cum |}.

(** The values [calculate_metrics] computes (lines 87-105).  The
    dictionary it returns holds them rounded to two decimals and the
    capital figures formatted as text; the record holds the values before
    that display step. *)
Record Metrics : Type := {
  buy_hold_total : float64;
  strategy_total : float64;
  buy_hold_annual : float64;
  strategy_annual : float64;
  buyhold_sharpe : float64;
  strategy_sharpe : float64;
  max_drawdown : float64;
  num_trades : nat;
  final_strategy_value : float64;
  final_buy_hold_value : float64
}.

Inductive exn : Type := IndexError | ZeroDivisionError.

Inductive result (A : Type) : Type :=
| Ok (a : A)
| Raise (e : exn).
Arguments Ok {A} a.
Arguments Raise {A} e.

(** [col.iloc[-1]]. *)
Definition iloc_last (col : column) : option float64 :=
  match col with
  | [] => None
  | _ :: _ => Some (last col NaN)
  end.

Definition total_return (final : float64) (cap : R) : float64 :=
  fmul (fsub (fdiv final (Fin cap)) (Fin 1)) (Fin 100).

Definition annual_return (final : float64) (cap : R) (years : R) : float64 :=
  fmul (fsub (fpow (fdiv final (Fin cap)) (1 / years)) (Fin 1)) (Fin 100).

Definition sharpe (returns : column) : float64 :=
  fmul (fdiv (nanmean returns) (nanstd returns)) (Fin (sqrt 252)).

Definition drawdown (values : column) : column :=
  let cm := cummax values in
  map (fun q => fmul q (Fin 100)) (map2 fdiv (map2 fsub values cm) cm).

(** Lines 87-105 once the last values and [years] are known. *)
Definition metrics_at (d : DataFrame) (cap : R) (years : R)
  (bh_final st_final : float64) : Metrics :=
  {| buy_hold_total := total_return bh_final cap;
     strategy_total := total_return st_final cap;
     buy_hold_annual := annual_return bh_final cap years;
     strategy_annual := annual_return st_final cap years;
     buyhold_sharpe := sharpe (Daily_Return d);
     strategy_sharpe := sharpe (Strategy_Return d);
     max_drawdown := nanmin (drawdown (Strategy_Value d));
     num_trades := count_nonzero (Position d);
     final_strategy_value := st_final;
     final_buy_hold_value := bh_final |}.

(** [years] of line 91. *)
Definition years_of (self : MovingAverageCrossover) : R :=
  IZR (timedelta_days (start_date self) (end_date self)) / 365.25.

(** [calculate_metrics]: [iloc[-1]] raises on an empty frame, and
    [1/years] raises when [years] is zero; nothing else raises. *)
Definition calculate_metrics (self : MovingAverageCrossover) : result Metrics :=
  let d := data self in
  match iloc_last (Buy_Hold_Value d), iloc_last (Strategy_Value d) with
  | Some bh_final, Some st_final =>
      let years := years_of self in
      if Req_dec_T years 0 then Raise ZeroDivisionError
      else Ok (metrics_at d (initial_capital self) years bh_final st_final)
  | _, _ => Raise IndexError
  end.

(** [run], without the printing and the plot: the frame after the three
    stages and the result of [calculate_metrics]. *)
Definition run (closes : list R) (self : MovingAverageCrossover)
  : MovingAverageCrossover * result Metrics :=
  let s := backtest (calculate_signals (download_data closes self)) in
  (s, calculate_metrics s).

(** [col[t]]: the entry of bar [t], if the bar exists. *)
Definition at_bar {A : Type} (col : list A) (t : nat) : option A :=
  nth_error col t.
Arguments at_bar : simpl never.

(** ** Definitions used by the statements *)

(** The number of bars, after the first, whose signal differs from the
    signal of the bar before: the bars with a non-zero position delta. *)
Fixpoint changes_after (prev : Z) (l : list Z) : nat :=
  match l with
  | [] => O
  | x :: tl => ((if (x =? prev)%Z then 0 else 1) + changes_after x tl)%nat
  end.

Definition signal_changes (sig : list Z) : nat :=
  match sig with
  | [] => O
  | x :: tl => changes_after x tl
  end.

(** The two masked assignments of lines 57-59, at one bar. *)
Definition signal_of (a b : float64) : Z :=
  if flt a b then (-1)%Z else if fgt a b then 1%Z else 0%Z.

(** The running state that belongs to the window of bar [i]. *)
Definition window_state (w : nat) (values : list R) (i : nat) : roll_state :=
  {| sum_x := Rsum (slice values (window_start w i) (window_end i));
     nobs := (window_end i - window_start w i)%nat |}.

(** The fixture: eight closes whose signal column, for windows of one
    and two bars, is [0,0,1,1,-1,-1,0,1]. *)
Definition fixture_closes : list R := [10; 10; 11; 12; 11; 10; 10; 11].

Definition fixture_strategy : MovingAverageCrossover :=
  init 0 (Some 0%Z) (Some (365 * microseconds_per_day)%Z) 1 2 1000.

(** The factor one bar contributes to the running product: [1 + return],
    and 1 when the return is undefined. *)
Definition factor (r : float64) : float64 :=
  if isna r then Fin 1 else fadd (Fin 1) r.

(** The running product of the factors of bars [0 .. t], seeded at 1. *)
Definition running_product (returns : column) (t : nat) : float64 :=
  fold_left fmul (map factor (firstn (S t) returns)) (Fin 1).

Definition is_finite (a : float64) : Prop := exists x, a = Fin x.

Definition positive_closes (self : MovingAverageCrossover) : Prop :=
  Forall (fun c => 0 < c) (Close (data self)).

(** Real-valued shadows of the running maximum and of the drawdown, for
    a column whose entries are finite; [m] is the peak so far. *)
Fixpoint rcummax_from (m : R) (l : list R) : list R :=
  match l with
  | [] => []
  | x :: tl => let m' := Rmax m x in m' :: rcummax_from m' tl
  end.

Fixpoint rdrawdown_from (m : R) (l : list R) : list R :=
  match l with
  | [] => []
  | x :: tl =>
      let m' := Rmax m x in (x - m') / m' * 100 :: rdrawdown_from m' tl
  end.

Fixpoint nondecreasing_from (m : R) (l : list R) : Prop :=
  match l with
  | [] => True
  | x :: tl => m <= x /\ nondecreasing_from x tl
  end.

Definition real_part (a : float64) : R :=
  match a with Fin x => x | _ => 0 end.

(** Mean and variance of a column that is NaN at the first bar and
    finite afterwards. *)
Definition rmean (xs : list R) : R :=
  fold_left Rplus xs (0 + 0) / INR (length xs).

Definition rvar (xs : list R) : R :=
  fold_left Rplus
    (map (fun x => (rmean xs - x) * (rmean xs - x)) xs) (0 + 0)
  / INR (length xs - 1).

(** The buy-and-hold part of the result of [calculate_metrics]. *)
Definition buy_hold_outputs (r : result Metrics)
  : result (float64 * float64 * float64) :=
  match r with
  | Ok m => Ok (buy_hold_total m, buy_hold_annual m, buyhold_sharpe m)
  | Raise e => Raise e
  end.

(** ** The rows [plot_results] marks *)

(** [a == b]; false as soon as one side is NaN. *)
Definition feq (a b : float64) : bool :=
  match a, b with
  | NaN, _ | _, NaN => false
  | Fin x, Fin y => if Req_dec_T x y then true else false
  | PInf, PInf | NInf, NInf => true
  | _, _ => false
  end.

(** [data[mask]]: the rows whose mask entry is true, each given by its
    position in the index and its close (what the scatter plots). *)
Definition rows_where (mask : list bool) (d : DataFrame) : list (nat * R) :=
  map snd
    (filter fst
       (combine mask (combine (seq 0 (length (Close d))) (Close d)))).

(** Lines 133-134: the rows marked as buy and as sell signals. *)
Definition buy_signals (self : MovingAverageCrossover) : list (nat * R) :=
  rows_where (map (fun p => feq p (Fin 2)) (Position (data self)))
    (data self).

Definition sell_signals (self : MovingAverageCrossover) : list (nat * R) :=
  rows_where (map (fun p => feq p (Fin (-2))) (Position (data self)))
    (data self).

(** A strategy whose long window (five bars) exceeds a three-bar series,
    with the default dates. *)
Definition short_history_strategy : MovingAverageCrossover :=
  init 0 None None 1 5 1000.

(** * Properties *)

(** Comparisons of concrete reals are settled by linear arithmetic. *)
Ltac decide_reals :=
  repeat match goal with
    | |- context [Rlt_dec ?a ?b] => destruct (Rlt_dec a b); try lra
    | |- context [Req_dec_T ?a ?b] =>
        let N := fresh "N" in
        destruct (Req_dec_T a b) as [? | N];
        try lra; try (exfalso; apply N; lra)
    end.

(** ** Columns: lengths and entries *)

Section Columns.
Context {A B C : Type}.

Lemma length_map2 (f : A -> B -> C) l1 l2 :
  length (map2 f l1 l2) = Nat.min (length l1) (length l2).
Proof. unfold map2. now rewrite length_map, length_combine. Qed.

Lemma nth_error_combine (l1 : list A) (l2 : list B) t :
  nth_error (combine l1 l2) t =
  match nth_error l1 t, nth_error l2 t with
  | Some a, Some b => Some (a, b)
  | _, _ => None
  end.
Proof.
  revert l2 t. induction l1 as [|a l1 IH]; intros [|b l2] [|t]; simpl;
    try reflexivity.
  - now destruct (nth_error l1 t).
  - apply IH.
Qed.

Lemma at_bar_map2 (f : A -> B -> C) l1 l2 t :
  at_bar (map2 f l1 l2) t =
  match at_bar l1 t, at_bar l2 t with
  | Some a, Some b => Some (f a b)
  | _, _ => None
  end.
Proof.
  unfold at_bar, map2. rewrite nth_error_map, nth_error_combine.
  destruct (nth_error l1 t), (nth_error l2 t); reflexivity.
Qed.

Lemma at_bar_map (f : A -> B) l t :
  at_bar (map f l) t = option_map f (at_bar l t).
Proof. unfold at_bar. apply nth_error_map. Qed.

Lemma at_bar_defined (l : list A) t :
  (t < length l)%nat -> exists a, at_bar l t = Some a.
Proof.
  intros H. unfold at_bar. destruct (nth_error l t) eqn:E; eauto.
  apply nth_error_None in E. lia.
Qed.
End Columns.

Lemma length_removelast_cons {A : Type} (a : A) l :
  length (removelast (a :: l)) = length l.
Proof.
  revert a. induction l as [|b l IH]; intros a; [reflexivity|].
  change (removelast (a :: b :: l)) with (a :: removelast (b :: l)).
  cbn [length]. now rewrite IH.
Qed.

Lemma length_shift col : length (shift col) = length col.
Proof.
  destruct col as [|a l]; [reflexivity|].
  unfold shift. cbn [length]. now rewrite length_removelast_cons.
Qed.

Lemma at_bar_removelast {A : Type} (l : list A) t :
  (S t < length l)%nat -> at_bar (removelast l) t = at_bar l t.
Proof.
  revert t. induction l as [|a l IH]; intros t H; [simpl in H; lia|].
  destruct l as [|b l]; [simpl in H; lia|].
  change (removelast (a :: b :: l)) with (a :: removelast (b :: l)).
  destruct t as [|t]; [reflexivity|].
  unfold at_bar in *. simpl nth_error. apply IH. simpl in *. lia.
Qed.

(** The shifted column holds NaN at the first bar and the value of bar
    [t] at bar [t + 1]. *)
Lemma at_bar_shift_first col :
  col <> [] -> at_bar (shift col) 0 = Some NaN.
Proof. destruct col; [congruence | reflexivity]. Qed.

Lemma at_bar_shift_next col t :
  (S t < length col)%nat -> at_bar (shift col) (S t) = at_bar col t.
Proof.
  intros H. destruct col as [|a l]; [simpl in H; lia|].
  unfold shift. change (at_bar (NaN :: removelast (a :: l)) (S t))
    with (at_bar (removelast (a :: l)) t).
  now apply at_bar_removelast.
Qed.

Lemma length_accumulate_from f acc l :
  length (accumulate_from f acc l) = length l.
Proof.
  revert acc. induction l as [|x l IH]; intros acc; simpl; [|rewrite IH];
    reflexivity.
Qed.

Lemma length_np_accumulate f l : length (np_accumulate f l) = length l.
Proof.
  destruct l; simpl; [|rewrite length_accumulate_from]; reflexivity.
Qed.

Lemma length_na_accum_func f v col :
  length (na_accum_func f v col) = length col.
Proof.
  unfold na_accum_func.
  rewrite length_map2, length_np_accumulate, length_map. lia.
Qed.

Lemma length_pct_change col : length (pct_change col) = length col.
Proof.
  unfold pct_change. rewrite length_map, length_map2, length_shift. lia.
Qed.

Lemma length_roll_mean_from w values i todo st :
  length (roll_mean_from w values i todo st) = todo.
Proof.
  revert i st. induction todo as [|k IH]; intros i st; simpl;
    [|rewrite IH]; reflexivity.
Qed.

Lemma length_rolling_mean w values :
  length (rolling_mean w values) = length values.
Proof. apply length_roll_mean_from. Qed.

Lemma length_loc_assign mask v col :
  length (loc_assign mask v col) = Nat.min (length mask) (length col).
Proof. apply length_map2. Qed.

Lemma length_signal_column n s l :
  length s = n -> length l = n -> length (signal_column n s l) = n.
Proof.
  intros Hs Hl. unfold signal_column.
  rewrite !length_loc_assign, !length_map2, repeat_length. lia.
Qed.

Lemma length_Signal_calculate_signals self :
  length (Signal (data (calculate_signals self))) =
  length (Close (data self)).
Proof.
  simpl. apply length_signal_column; apply length_rolling_mean.
Qed.

Lemma Close_calculate_signals self :
  Close (data (calculate_signals self)) = Close (data self).
Proof. reflexivity. Qed.

Lemma length_Daily_Return self :
  length (Daily_Return (data (backtest self))) = length (Close (data self)).
Proof. simpl. now rewrite length_pct_change, length_map. Qed.

Lemma length_Strategy_Return self :
  length (Signal (data self)) = length (Close (data self)) ->
  length (Strategy_Return (data (backtest self))) =
  length (Close (data self)).
Proof.
  intros H. simpl.
  rewrite length_map2, length_pct_change, length_shift, !length_map. lia.
Qed.

(** ** Return accounting *)

Lemma Daily_Return_at self k :
  (S k < length (Close (data self)))%nat ->
  exists c0 c1,
    at_bar (Close (data self)) k = Some c0 /\
    at_bar (Close (data self)) (S k) = Some c1 /\
    at_bar (Daily_Return (data (backtest self))) (S k) =
    Some (fsub (fdiv (Fin c1) (Fin c0)) (Fin 1)).
Proof.
  intros H.
  destruct (at_bar_defined (Close (data self)) k) as [c0 E0]; [lia|].
  destruct (at_bar_defined (Close (data self)) (S k)) as [c1 E1]; [lia|].
  exists c0, c1. repeat split; trivial.
  simpl. unfold pct_change.
  rewrite at_bar_map, at_bar_map2, at_bar_shift_next
    by (rewrite length_map; lia).
  rewrite !at_bar_map, E0, E1. reflexivity.
Qed.

Lemma Strategy_Return_at self k :
  length (Signal (data self)) = length (Close (data self)) ->
  (S k < length (Close (data self)))%nat ->
  at_bar (Strategy_Return (data (backtest self))) (S k) =
  match at_bar (Daily_Return (data (backtest self))) (S k),
        at_bar (Signal (data self)) k with
  | Some r, Some sg => Some (fmul r (of_int sg))
  | _, _ => None
  end.
Proof.
  intros Hlen H.
  change (Strategy_Return (data (backtest self)))
    with (map2 fmul (Daily_Return (data (backtest self)))
            (shift (map of_int (Signal (data self))))).
  rewrite at_bar_map2, at_bar_shift_next by (rewrite length_map; lia).
  rewrite at_bar_map.
  destruct (at_bar (Daily_Return (data (backtest self))) (S k));
    destruct (at_bar (Signal (data self)) k); reflexivity.
Qed.

(** C1.  At every bar [t] after the first, the strategy return is the
    daily return of bar [t] (close[t] / close[t-1] - 1) times the signal
    of bar [t - 1]; a frame with the same closes and the same signal at
    bar [t - 1] gives the same strategy return at [t], whatever its
    signal is at [t] or at any other bar. *)
Theorem strategy_return_lags_signal (self : MovingAverageCrossover) (t : nat) :
  length (Signal (data self)) = length (Close (data self)) ->
  (1 <= t < length (Close (data self)))%nat ->
  (exists c0 c1 sg,
      at_bar (Close (data self)) (t - 1) = Some c0 /\
      at_bar (Close (data self)) t = Some c1 /\
      at_bar (Signal (data self)) (t - 1) = Some sg /\
      at_bar (Daily_Return (data (backtest self))) t =
        Some (fsub (fdiv (Fin c1) (Fin c0)) (Fin 1)) /\
      at_bar (Strategy_Return (data (backtest self))) t =
        Some (fmul (fsub (fdiv (Fin c1) (Fin c0)) (Fin 1)) (of_int sg)))
  /\ (forall self' : MovingAverageCrossover,
         Close (data self') = Close (data self) ->
         length (Signal (data self')) = length (Close (data self')) ->
         at_bar (Signal (data self')) (t - 1) =
           at_bar (Signal (data self)) (t - 1) ->
         at_bar (Strategy_Return (data (backtest self'))) t =
           at_bar (Strategy_Return (data (backtest self))) t).
Proof.
  intros Hlen [H1 Ht].
  destruct t as [|k]; [lia|]. replace (S k - 1)%nat with k by lia.
  split.
  - destruct (Daily_Return_at self k Ht) as (c0 & c1 & E0 & E1 & Ed).
    destruct (at_bar_defined (Signal (data self)) k) as [sg Es]; [lia|].
    exists c0, c1, sg. repeat split; trivial.
    rewrite Strategy_Return_at, Ed, Es by assumption. reflexivity.
  - intros self' Hc Hlen' Hs.
    rewrite (Strategy_Return_at self k Hlen Ht).
    rewrite (Strategy_Return_at self' k Hlen') by (rewrite Hc; exact Ht).
    rewrite Hs. simpl. rewrite Hc. reflexivity.
Qed.

(** C8.  At every bar both cumulative factors and both value columns
    have an entry, and each value is the initial capital times the
    cumulative factor of the same bar. *)
Theorem value_is_capital_times_cumulative (self : MovingAverageCrossover)
  (t : nat) :
  length (Signal (data self)) = length (Close (data self)) ->
  (t < length (Close (data self)))%nat ->
  exists b s,
    at_bar (Buy_Hold_Return (data (backtest self))) t = Some b /\
    at_bar (Strategy_Cumulative (data (backtest self))) t = Some s /\
    at_bar (Buy_Hold_Value (data (backtest self))) t =
      Some (fmul (Fin (initial_capital self)) b) /\
    at_bar (Strategy_Value (data (backtest self))) t =
      Some (fmul (Fin (initial_capital self)) s).
Proof.
  intros Hlen Ht.
  destruct (at_bar_defined (Buy_Hold_Return (data (backtest self))) t)
    as [b Eb].
  { change (Buy_Hold_Return (data (backtest self)))
      with (cumprod (map (fadd (Fin 1))
                       (Daily_Return (data (backtest self))))).
    unfold cumprod.
    now rewrite length_na_accum_func, length_map, length_Daily_Return. }
  destruct (at_bar_defined (Strategy_Cumulative (data (backtest self))) t)
    as [s Es].
  { change (Strategy_Cumulative (data (backtest self)))
      with (cumprod (map (fadd (Fin 1))
                       (Strategy_Return (data (backtest self))))).
    unfold cumprod.
    now rewrite length_na_accum_func, length_map,
      (length_Strategy_Return self Hlen). }
  exists b, s. split; [exact Eb|]. split; [exact Es|]. split.
  - change (Buy_Hold_Value (data (backtest self)))
      with (map (fmul (Fin (initial_capital self)))
              (Buy_Hold_Return (data (backtest self)))).
    now rewrite at_bar_map, Eb.
  - change (Strategy_Value (data (backtest self)))
      with (map (fmul (Fin (initial_capital self)))
              (Strategy_Cumulative (data (backtest self)))).
    now rewrite at_bar_map, Es.
Qed.

(** ** Signals *)

Lemma flt_irrefl a : flt a a = false.
Proof.
  destruct a; simpl; trivial. destruct (Rlt_dec x x); trivial. lra.
Qed.

Lemma flt_asym a b : flt a b = true -> flt b a = false.
Proof.
  destruct a, b; simpl; trivial; try discriminate.
  destruct (Rlt_dec x x0), (Rlt_dec x0 x); trivial; try discriminate. lra.
Qed.

Lemma flt_nan_l b : flt NaN b = false.
Proof. now destruct b. Qed.

Lemma flt_nan_r a : flt a NaN = false.
Proof. now destruct a. Qed.

Lemma at_bar_signal_column n s l t :
  length s = n -> length l = n -> (t < n)%nat ->
  exists a b,
    at_bar s t = Some a /\ at_bar l t = Some b /\
    at_bar (signal_column n s l) t = Some (signal_of a b).
Proof.
  intros Hs Hl Ht.
  destruct (at_bar_defined s t) as [a Ea]; [lia|].
  destruct (at_bar_defined l t) as [b Eb]; [lia|].
  exists a, b. repeat split; trivial.
  unfold signal_column, loc_assign.
  rewrite !at_bar_map2, Ea, Eb.
  unfold at_bar at 1. rewrite nth_error_repeat by assumption.
  reflexivity.
Qed.

(** C4.  At every bar the signal is -1, 0 or +1; it is 0 when one of the
    two averages is undefined (NaN) and when the two averages are equal;
    it is +1 when the short average is above the long one and -1 when it
    is below. *)
Theorem signal_is_tristate (self : MovingAverageCrossover) (t : nat) :
  (t < length (Close (data self)))%nat ->
  exists a b sg,
    at_bar (SMA_short (data (calculate_signals self))) t = Some a /\
    at_bar (SMA_long (data (calculate_signals self))) t = Some b /\
    at_bar (Signal (data (calculate_signals self))) t = Some sg /\
    (sg = (-1)%Z \/ sg = 0%Z \/ sg = 1%Z) /\
    (a = NaN \/ b = NaN -> sg = 0%Z) /\
    (a = b -> sg = 0%Z) /\
    (fgt a b = true -> sg = 1%Z) /\
    (flt a b = true -> sg = (-1)%Z).
Proof.
  intros Ht.
  destruct (at_bar_signal_column (length (Close (data self)))
              (rolling_mean (short_window self) (Close (data self)))
              (rolling_mean (long_window self) (Close (data self))) t)
    as (a & b & Ea & Eb & Es);
    try apply length_rolling_mean; trivial.
  exists a, b, (signal_of a b). unfold signal_of, fgt.
  repeat split; trivial.
  - destruct (flt a b), (flt b a); auto.
  - intros [-> | ->]; now rewrite ?flt_nan_l, ?flt_nan_r.
  - intros ->. now rewrite flt_irrefl.
  - intros H. now rewrite (flt_asym _ _ H), H.
  - intros H. now rewrite H.
Qed.

(** ** Rolling means *)

Lemma firstn_plus {A : Type} (a b : nat) (l : list A) :
  firstn (a + b) l = firstn a l ++ firstn b (skipn a l).
Proof.
  revert l. induction a as [|a IH]; intros l; [reflexivity|].
  destruct l as [|x l]; simpl.
  - now rewrite firstn_nil.
  - now rewrite IH.
Qed.

Lemma slice_split (values : list R) (s m e : nat) :
  (s <= m <= e)%nat ->
  slice values s e = slice values s m ++ slice values m e.
Proof.
  intros H. unfold slice.
  replace (e - s)%nat with ((m - s) + (e - m))%nat by lia.
  rewrite firstn_plus, skipn_skipn.
  replace (m - s + s)%nat with m by lia. reflexivity.
Qed.

Lemma length_slice (values : list R) (s e : nat) :
  (e <= length values)%nat -> length (slice values s e) = (e - s)%nat.
Proof.
  intros H. unfold slice. rewrite length_firstn, length_skipn. lia.
Qed.

Lemma Rsum_app l1 l2 : Rsum (l1 ++ l2) = Rsum l1 + Rsum l2.
Proof.
  unfold Rsum. induction l1 as [|x l1 IH]; simpl; [lra | rewrite IH; lra].
Qed.

Lemma fold_add_mean l st :
  fold_left add_mean l st =
  {| sum_x := sum_x st + Rsum l; nobs := nobs st + length l |}.
Proof.
  revert st. induction l as [|x l IH]; intros [s n]; simpl.
  - f_equal; [unfold Rsum; simpl; lra | lia].
  - rewrite IH. simpl. f_equal; [unfold Rsum; simpl; lra | lia].
Qed.

Lemma fold_remove_mean l st :
  fold_left remove_mean l st =
  {| sum_x := sum_x st - Rsum l; nobs := nobs st - length l |}.
Proof.
  revert st. induction l as [|x l IH]; intros [s n]; simpl.
  - f_equal; [unfold Rsum; simpl; lra | lia].
  - rewrite IH. simpl. f_equal; [unfold Rsum; simpl; lra | lia].
Qed.

(** One step of the sliding window turns the state of the previous
    window into the state of the current one. *)
Lemma roll_step_window w values i st :
  (i < length values)%nat ->
  (i = 0%nat \/ st = window_state w values (i - 1)) ->
  roll_step w values i st = window_state w values i.
Proof.
  intros Hi Hst. unfold roll_step.
  destruct ((i =? 0)%nat || (window_end (i - 1) <=? window_start w i)%nat)
    eqn:E.
  - rewrite fold_add_mean. unfold window_state, roll_init. simpl.
    rewrite length_slice by (unfold window_end; lia).
    f_equal. lra.
  - apply orb_false_iff in E. destruct E as [E0 E1].
    apply Nat.eqb_neq in E0. apply Nat.leb_gt in E1.
    destruct Hst as [-> | ->]; [lia|].
    unfold window_start, window_end in *.
    rewrite fold_add_mean, fold_remove_mean. unfold window_state. simpl.
    rewrite !length_slice by lia.
    unfold window_start, window_end.
    rewrite (slice_split values (i - 1 + 1 - w) (i + 1 - w) (i - 1 + 1))
      by lia.
    rewrite (slice_split values (i + 1 - w) (i - 1 + 1) (i + 1)) by lia.
    rewrite !Rsum_app. f_equal; [lra | lia].
Qed.

Lemma at_bar_roll_mean_from w values todo :
  forall i st t,
    (i + todo <= length values)%nat ->
    (i = 0%nat \/ st = window_state w values (i - 1)) ->
    (t < todo)%nat ->
    at_bar (roll_mean_from w values i todo st) t =
    Some (calc_mean w (window_state w values (i + t))).
Proof.
  induction todo as [|k IH]; intros i st t Hlen Hst Ht; [lia|].
  simpl. rewrite (roll_step_window w values i st) by (trivial; lia).
  destruct t as [|t].
  - now rewrite Nat.add_0_r.
  - change (at_bar (?x :: ?l) (S t)) with (at_bar l t).
    rewrite IH; try lia.
    + now rewrite Nat.add_succ_r.
    + right. simpl. now rewrite Nat.sub_0_r.
Qed.

Lemma calc_mean_window w values t :
  (1 <= w)%nat -> (t < length values)%nat ->
  calc_mean w (window_state w values t) = naive_mean_at w values t.
Proof.
  intros Hw Ht. unfold calc_mean, naive_mean_at, window_state. simpl.
  unfold window_start, window_end.
  destruct (t + 1 <? w)%nat eqn:E.
  - apply Nat.ltb_lt in E.
    replace (w <=? t + 1 - (t + 1 - w))%nat with false; trivial.
    symmetry. apply Nat.leb_gt. lia.
  - apply Nat.ltb_ge in E.
    replace (t + 1 - (t + 1 - w))%nat with w by lia.
    rewrite Nat.leb_refl.
    replace (0 <? w)%nat with true; trivial.
    symmetry. apply Nat.ltb_lt. lia.
Qed.

Lemma at_bar_rolling_mean w values t :
  (1 <= w)%nat -> (t < length values)%nat ->
  at_bar (rolling_mean w values) t = Some (naive_mean_at w values t).
Proof.
  intros Hw Ht. unfold rolling_mean.
  rewrite at_bar_roll_mean_from; auto.
  simpl. now rewrite calc_mean_window.
Qed.

Lemma at_bar_naive_rolling_mean w values t :
  (t < length values)%nat ->
  at_bar (naive_rolling_mean w values) t = Some (naive_mean_at w values t).
Proof.
  intros Ht. unfold naive_rolling_mean. rewrite at_bar_map.
  unfold at_bar. rewrite nth_error_seq.
  apply Nat.ltb_lt in Ht. now rewrite Ht.
Qed.

(** With a window of zero bars every rolling mean is undefined. *)
Lemma at_bar_rolling_mean_zero values t :
  (t < length values)%nat -> at_bar (rolling_mean 0 values) t = Some NaN.
Proof.
  intros Ht. unfold rolling_mean.
  rewrite at_bar_roll_mean_from; auto.
  unfold calc_mean, window_state, window_start, window_end. simpl.
  now replace (t + 1 - (t + 1 - 0))%nat with 0%nat by lia.
Qed.

(** ** Trade count *)

Lemma fne_of_int_sub y x :
  fne (fsub (of_int y) (of_int x)) (Fin 0) = negb (y =? x)%Z.
Proof.
  unfold of_int. simpl. destruct (Req_dec_T (IZR y - IZR x) 0) as [E | E].
  - assert (y = x) by (apply eq_IZR; lra). subst. now rewrite Z.eqb_refl.
  - destruct (Z.eqb_spec y x) as [-> | N]; trivial. lra.
Qed.

Lemma count_nonzero_cons a col :
  count_nonzero (a :: col) =
  ((if fne a (Fin 0) then 1 else 0) + count_nonzero col)%nat.
Proof. unfold count_nonzero. simpl. now destruct (fne a (Fin 0)). Qed.

Lemma count_nonzero_changes_after tl :
  forall x,
    count_nonzero
      (map2 fsub (map of_int tl) (removelast (map of_int (x :: tl)))) =
    changes_after x tl.
Proof.
  induction tl as [|y tl IH]; intros x; [reflexivity|].
  change (removelast (map of_int (x :: y :: tl)))
    with (of_int x :: removelast (map of_int (y :: tl))).
  change (map2 fsub (map of_int (y :: tl))
            (of_int x :: removelast (map of_int (y :: tl))))
    with (fsub (of_int y) (of_int x)
            :: map2 fsub (map of_int tl) (removelast (map of_int (y :: tl)))).
  rewrite count_nonzero_cons, fne_of_int_sub, IH. simpl.
  now destruct (y =? x)%Z.
Qed.

(** The first bar, whose position delta is NaN, is counted as a trade:
    the count is one more than the number of signal changes. *)
Lemma count_nonzero_diff sig :
  sig <> [] -> count_nonzero (diff sig) = S (signal_changes sig).
Proof.
  destruct sig as [|x tl]; [congruence|]. intros _.
  change (diff (x :: tl))
    with (fsub (of_int x) NaN
            :: map2 fsub (map of_int tl) (removelast (map of_int (x :: tl)))).
  rewrite count_nonzero_cons, count_nonzero_changes_after. reflexivity.
Qed.

Lemma rolling_mean_naive w closes :
  (1 <= w)%nat -> rolling_mean w closes = naive_rolling_mean w closes.
Proof.
  intros Hw. apply nth_error_ext. intros n.
  destruct (Nat.lt_ge_cases n (length closes)) as [Hn | Hn].
  - change (at_bar (rolling_mean w closes) n =
            at_bar (naive_rolling_mean w closes) n).
    now rewrite at_bar_rolling_mean, at_bar_naive_rolling_mean.
  - transitivity (@None float64); [|symmetry]; apply nth_error_None.
    + now rewrite length_rolling_mean.
    + unfold naive_rolling_mean. now rewrite length_map, length_seq.
Qed.

Lemma num_trades_run closes self m :
  closes <> [] -> snd (run closes self) = Ok m ->
  num_trades m =
  S (signal_changes (Signal (data (fst (run closes self))))).
Proof.
  intros Hne Hm. unfold run in *. cbn [fst snd] in *.
  unfold calculate_metrics in Hm.
  destruct (iloc_last _); [|discriminate].
  destruct (iloc_last _); [|discriminate].
  destruct (Req_dec_T _ 0); [discriminate|].
  injection Hm as <-. cbn [num_trades metrics_at].
  cbn [backtest calculate_signals download_data with_data data Position
       Signal Close frame_of_closes].
  apply count_nonzero_diff.
  intros E. apply (f_equal (@length Z)) in E.
  rewrite length_signal_column in E by apply length_rolling_mean.
  destruct closes; [congruence | discriminate].
Qed.

Lemma fixture_signal :
  Signal (data (fst (run fixture_closes fixture_strategy))) =
  [0; 0; 1; 1; -1; -1; 0; 1]%Z.
Proof.
  cbn [run fst backtest calculate_signals download_data with_data data
       Signal Close frame_of_closes fixture_strategy init short_window
       long_window].
  rewrite !rolling_mean_naive by lia.
  unfold fixture_closes, naive_rolling_mean, naive_mean_at, slice, Rsum.
  simpl. unfold signal_column, loc_assign, map2, fgt. simpl.
  decide_reals; reflexivity.
Qed.

Lemma fixture_years_nonzero : years_of fixture_strategy <> 0.
Proof.
  unfold years_of, fixture_strategy, init. cbn [start_date end_date].
  replace (timedelta_days 0 (365 * microseconds_per_day)) with 365%Z
    by reflexivity.
  lra.
Qed.

(** C2.  On the fixture, whose signal column is [0,0,1,1,-1,-1,0,1] and
    has four bars with a non-zero position delta, the program reports
    five trades. *)
Theorem trade_count_on_fixture :
  Signal (data (fst (run fixture_closes fixture_strategy))) =
    [0; 0; 1; 1; -1; -1; 0; 1]%Z
  /\ signal_changes [0; 0; 1; 1; -1; -1; 0; 1]%Z = 4%nat
  /\ exists m, snd (run fixture_closes fixture_strategy) = Ok m
               /\ num_trades m = 5%nat.
Proof.
  split; [apply fixture_signal|]. split; [reflexivity|].
  destruct (snd (run fixture_closes fixture_strategy)) as [m | e] eqn:E.
  - exists m. split; trivial.
    rewrite (num_trades_run fixture_closes fixture_strategy m);
      [|discriminate | assumption].
    now rewrite fixture_signal.
  - exfalso. unfold run in E. cbn [snd] in E.
    unfold calculate_metrics in E.
    destruct (iloc_last _) eqn:E1; [|discriminate E1].
    destruct (iloc_last _) eqn:E2; [|discriminate E2].
    destruct (Req_dec_T _ 0) as [Hy | Hy]; [|discriminate].
    now apply fixture_years_nonzero.
Qed.

(** ** Cumulative factors *)

Lemma fmul_1_l a : fmul (Fin 1) a = a.
Proof.
  destruct a; simpl; trivial.
  - f_equal. lra.
  - unfold scale_inf. decide_reals. reflexivity.
  - unfold scale_inf. decide_reals. reflexivity.
Qed.

Lemma fmaximum_ninf_l a : fmaximum NInf a = a.
Proof. now destruct a. Qed.

Lemma at_bar_accumulate_from f l :
  forall acc t,
    (t < length l)%nat ->
    at_bar (accumulate_from f acc l) t =
    Some (fold_left f (firstn (S t) l) acc).
Proof.
  induction l as [|x l IH]; intros acc t Ht; [simpl in Ht; lia|].
  destruct t as [|t]; [reflexivity|].
  simpl accumulate_from.
  change (at_bar (?a :: ?r) (S t)) with (at_bar r t).
  rewrite IH by (simpl in Ht; lia). reflexivity.
Qed.

Lemma at_bar_np_accumulate f e l t :
  (forall x, f e x = x) ->
  (t < length l)%nat ->
  at_bar (np_accumulate f l) t = Some (fold_left f (firstn (S t) l) e).
Proof.
  intros He Ht. destruct l as [|x l]; [simpl in Ht; lia|].
  destruct t as [|t]; simpl.
  - now rewrite He.
  - change (at_bar (?a :: ?r) (S t)) with (at_bar r t).
    rewrite at_bar_accumulate_from by (simpl in Ht; lia).
    now rewrite He.
Qed.

(** An accumulation that skips NaN: at a bar whose entry is NaN the
    result is NaN, at any other bar it is the fold of the entries up to
    that bar, NaN entries replaced by the neutral value. *)
Lemma at_bar_na_accum_func f e col t a :
  (forall x, f e x = x) ->
  at_bar col t = Some a ->
  at_bar (na_accum_func f e col) t =
  Some (if isna a then NaN
        else fold_left f (map (fillna e) (firstn (S t) col)) e).
Proof.
  intros He Ea. unfold na_accum_func.
  assert (Ht : (t < length col)%nat).
  { apply nth_error_Some. unfold at_bar in Ea. congruence. }
  rewrite at_bar_map2, Ea, (at_bar_np_accumulate f e)
    by (trivial; now rewrite length_map).
  now rewrite firstn_map.
Qed.

Lemma fillna_one_plus r : fillna (Fin 1) (fadd (Fin 1) r) = factor r.
Proof. now destruct r. Qed.

Lemma isna_one_plus r : isna (fadd (Fin 1) r) = isna r.
Proof. now destruct r. Qed.

Lemma at_bar_cumprod_one_plus returns t r :
  at_bar returns t = Some r ->
  at_bar (cumprod (map (fadd (Fin 1)) returns)) t =
  Some (if isna r then NaN else running_product returns t).
Proof.
  intros Er. unfold cumprod.
  rewrite (at_bar_na_accum_func fmul (Fin 1) _ t (fadd (Fin 1) r));
    [|apply fmul_1_l | now rewrite at_bar_map, Er].
  rewrite isna_one_plus. unfold running_product.
  rewrite <- firstn_map, map_map.
  now rewrite (map_ext _ factor fillna_one_plus), firstn_map.
Qed.

(** The first bar of the daily and of the strategy returns is NaN. *)
Lemma Daily_Return_first self :
  Close (data self) <> [] ->
  at_bar (Daily_Return (data (backtest self))) 0 = Some NaN.
Proof.
  intros H. simpl. destruct (Close (data self)) as [|c l]; [congruence|].
  reflexivity.
Qed.

Lemma Strategy_Return_first self :
  Close (data self) <> [] ->
  length (Signal (data self)) = length (Close (data self)) ->
  at_bar (Strategy_Return (data (backtest self))) 0 = Some NaN.
Proof.
  intros H Hlen. simpl.
  destruct (Close (data self)) as [|c l]; [congruence|].
  destruct (Signal (data self)) as [|s g]; [discriminate|].
  reflexivity.
Qed.

Lemma fdiv_finite x y : y <> 0 -> fdiv (Fin x) (Fin y) = Fin (x / y).
Proof. intros H. simpl. now destruct (Req_dec_T y 0). Qed.

Lemma positive_close_at self t c :
  positive_closes self -> at_bar (Close (data self)) t = Some c -> 0 < c.
Proof.
  intros Hp Hc. unfold positive_closes in Hp.
  rewrite Forall_forall in Hp. apply Hp.
  unfold at_bar in Hc. now apply nth_error_In in Hc.
Qed.

(** After the first bar, positive closes give finite returns. *)
Lemma Daily_Return_finite self k :
  positive_closes self ->
  (S k < length (Close (data self)))%nat ->
  exists c0 c1,
    at_bar (Close (data self)) k = Some c0 /\
    at_bar (Close (data self)) (S k) = Some c1 /\ 0 < c0 /\ 0 < c1 /\
    at_bar (Daily_Return (data (backtest self))) (S k) =
    Some (Fin (c1 / c0 - 1)).
Proof.
  intros Hp Hk.
  destruct (Daily_Return_at self k Hk) as (c0 & c1 & E0 & E1 & Ed).
  pose proof (positive_close_at self k c0 Hp E0).
  pose proof (positive_close_at self (S k) c1 Hp E1).
  exists c0, c1. repeat split; trivial.
  rewrite Ed, fdiv_finite by lra. reflexivity.
Qed.

Lemma Strategy_Return_finite self k :
  positive_closes self ->
  length (Signal (data self)) = length (Close (data self)) ->
  (S k < length (Close (data self)))%nat ->
  exists r sg,
    at_bar (Daily_Return (data (backtest self))) (S k) = Some (Fin r) /\
    at_bar (Signal (data self)) k = Some sg /\
    at_bar (Strategy_Return (data (backtest self))) (S k) =
    Some (Fin (r * IZR sg)).
Proof.
  intros Hp Hlen Hk.
  destruct (Daily_Return_finite self k Hp Hk)
    as (c0 & c1 & _ & _ & _ & _ & Ed).
  destruct (at_bar_defined (Signal (data self)) k) as [sg Es]; [lia|].
  exists (c1 / c0 - 1), sg. repeat split; trivial.
  rewrite Strategy_Return_at, Ed, Es by assumption. reflexivity.
Qed.




Lemma Daily_Return_entries self i a :
  positive_closes self ->
  at_bar (Daily_Return (data (backtest self))) i = Some a ->
  a = NaN \/ is_finite a.
Proof.
  intros Hp Ha.
  assert (Hi : (i < length (Close (data self)))%nat).
  { rewrite <- length_Daily_Return. apply nth_error_Some.
    unfold at_bar in Ha. congruence. }
  destruct i as [|k].
  - rewrite Daily_Return_first in Ha
      by (destruct (Close (data self)); [simpl in Hi; lia | discriminate]).
    left. congruence.
  - destruct (Daily_Return_finite self k Hp Hi)
      as (c0 & c1 & _ & _ & _ & _ & Ed).
    right. exists (c1 / c0 - 1). congruence.
Qed.

Lemma Strategy_Return_entries self i a :
  positive_closes self ->
  length (Signal (data self)) = length (Close (data self)) ->
  at_bar (Strategy_Return (data (backtest self))) i = Some a ->
  a = NaN \/ is_finite a.
Proof.
  intros Hp Hlen Ha.
  assert (Hi : (i < length (Close (data self)))%nat).
  { rewrite <- (length_Strategy_Return self Hlen). apply nth_error_Some.
    unfold at_bar in Ha. congruence. }
  destruct i as [|k].
  - rewrite Strategy_Return_first in Ha;
      [left; congruence | | assumption].
    destruct (Close (data self)); [simpl in Hi; lia | discriminate].
  - destruct (Strategy_Return_finite self k Hp Hlen Hi)
      as (r & sg & _ & _ & Es).
    right. exists (r * IZR sg). congruence.
Qed.

(** C3, as the code has it.  Both cumulative factors are NaN at the
    first bar.  At every bar each has an entry: NaN when the return of
    that bar is NaN, and otherwise the running product, seeded at 1, of
    the factors [1 + return] of the bars so far, in which a NaN return
    (that of the first bar in particular) counts as the factor 1. *)
Theorem cumulative_factor_is_running_product (self : MovingAverageCrossover)
  (t : nat) :
  length (Signal (data self)) = length (Close (data self)) ->
  (t < length (Close (data self)))%nat ->
  let d := data (backtest self) in
  (t = 0%nat ->
     at_bar (Buy_Hold_Return d) t = Some NaN /\
     at_bar (Strategy_Cumulative d) t = Some NaN)
  /\ exists r s,
       at_bar (Daily_Return d) t = Some r /\
       at_bar (Strategy_Return d) t = Some s /\
       at_bar (Buy_Hold_Return d) t =
         Some (if isna r then NaN else running_product (Daily_Return d) t) /\
       at_bar (Strategy_Cumulative d) t =
         Some (if isna s then NaN
               else running_product (Strategy_Return d) t).
Proof.
  intros Hlen Ht d.
  assert (Hne : Close (data self) <> []).
  { destruct (Close (data self)); [simpl in Ht; lia | discriminate]. }
  destruct (at_bar_defined (Daily_Return d) t) as [r Er].
  { subst d. now rewrite length_Daily_Return. }
  destruct (at_bar_defined (Strategy_Return d) t) as [s Es].
  { subst d. now rewrite (length_Strategy_Return self Hlen). }
  assert (Hb : at_bar (Buy_Hold_Return d) t =
               Some (if isna r then NaN
                     else running_product (Daily_Return d) t))
    by exact (at_bar_cumprod_one_plus (Daily_Return d) t r Er).
  assert (Hs : at_bar (Strategy_Cumulative d) t =
               Some (if isna s then NaN
                     else running_product (Strategy_Return d) t))
    by exact (at_bar_cumprod_one_plus (Strategy_Return d) t s Es).
  split.
  - intros ->. subst d.
    rewrite (Daily_Return_first self Hne) in Er.
    rewrite (Strategy_Return_first self Hne Hlen) in Es.
    injection Er as <-. injection Es as <-. split; assumption.
  - exists r, s. repeat split; assumption.
Qed.

(** C3 as stated fails at the first bar: on the two closes 100, 110 the
    cumulative factors of the first bar are NaN, while the running
    product seeded at 1 is 1 there. *)
Lemma cumulative_factor_first_bar_undefined :
  let d := data (fst (run [100; 110] fixture_strategy)) in
  at_bar (Buy_Hold_Return d) 0 = Some NaN /\
  at_bar (Strategy_Cumulative d) 0 = Some NaN /\
  at_bar (Buy_Hold_Return d) 0 <>
    Some (running_product (Daily_Return d) 0) /\
  at_bar (Strategy_Cumulative d) 0 <>
    Some (running_product (Strategy_Return d) 0) /\
  running_product (Daily_Return d) 0 = Fin 1.
Proof.
  repeat split; try discriminate.
  simpl. unfold running_product. simpl. f_equal. lra.
Qed.

(** ** Drawdown *)

Lemma fmaximum_finite m x : fmaximum (Fin m) (Fin x) = Fin (Rmax m x).
Proof.
  simpl. unfold Rmax.
  destruct (Rlt_dec m x), (Rle_dec m x); trivial; try lra.
  f_equal. lra.
Qed.

Lemma fminimum_finite a b : fminimum (Fin a) (Fin b) = Fin (Rmin a b).
Proof.
  simpl. unfold Rmin.
  destruct (Rlt_dec b a), (Rle_dec a b); trivial; try lra.
Qed.

Lemma accumulate_fmaximum_finite l :
  forall m,
    accumulate_from fmaximum (Fin m) (map Fin l) =
    map Fin (rcummax_from m l).
Proof.
  induction l as [|x l IH]; intros m; [reflexivity|].
  cbn [map accumulate_from]. cbv zeta.
  rewrite fmaximum_finite, IH. reflexivity.
Qed.

Lemma length_rcummax_from l : forall m, length (rcummax_from m l) = length l.
Proof.
  induction l as [|x l IH]; intros m; simpl; [|rewrite IH]; reflexivity.
Qed.

Lemma mask_finite (a b : list R) :
  length a = length b ->
  map2 (fun orig r => if isna orig then NaN else r) (map Fin a) (map Fin b) =
  map Fin b.
Proof.
  revert b. induction a as [|x a IH]; intros [|y b] H; try discriminate;
    [reflexivity|].
  unfold map2 in *. simpl. f_equal. apply IH. simpl in H. lia.
Qed.

Lemma cummax_finite_tail v vs :
  cummax (NaN :: Fin v :: map Fin vs) =
  NaN :: Fin v :: map Fin (rcummax_from v vs).
Proof.
  unfold cummax, na_accum_func.
  change (map (fillna NInf) (NaN :: Fin v :: map Fin vs))
    with (NInf :: Fin v :: map (fillna NInf) (map Fin vs)).
  rewrite map_map.
  change (map (fun x => fillna NInf (Fin x)) vs) with (map Fin vs).
  cbn [np_accumulate accumulate_from]. cbv zeta.
  change (fmaximum NInf (Fin v)) with (Fin v).
  rewrite accumulate_fmaximum_finite.
  change (map2 ?f (NaN :: Fin v :: map Fin vs)
            (NInf :: Fin v :: map Fin (rcummax_from v vs)))
    with (NaN :: Fin v ::
            map2 f (map Fin vs) (map Fin (rcummax_from v vs))).
  now rewrite mask_finite by now rewrite length_rcummax_from.
Qed.

Lemma drawdown_finite_from l :
  forall m, 0 < m ->
    map (fun q => fmul q (Fin 100))
      (map2 fdiv
         (map2 fsub (map Fin l) (map Fin (rcummax_from m l)))
         (map Fin (rcummax_from m l))) =
    map Fin (rdrawdown_from m l).
Proof.
  induction l as [|x l IH]; intros m Hm; [reflexivity|].
  assert (Hmax : 0 < Rmax m x).
  { unfold Rmax. destruct (Rle_dec m x); lra. }
  simpl rcummax_from. simpl rdrawdown_from. unfold map2 in *. simpl map.
  simpl combine. simpl map.
  rewrite IH by assumption. f_equal.
  destruct (Req_dec_T (Rmax m x) 0); [lra | reflexivity].
Qed.

Lemma drawdown_finite_tail v vs :
  0 < v ->
  drawdown (NaN :: Fin v :: map Fin vs) =
  NaN :: Fin ((v - v) / v * 100) :: map Fin (rdrawdown_from v vs).
Proof.
  intros Hv. unfold drawdown. rewrite cummax_finite_tail.
  rewrite <- (drawdown_finite_from vs v Hv).
  unfold map2. simpl.
  destruct (Req_dec_T v 0); [lra | reflexivity].
Qed.

Lemma fold_fminimum_finite l :
  forall a,
    fold_left fminimum (map (fillna PInf) (map Fin l)) (Fin a) =
    Fin (fold_left Rmin l a).
Proof.
  induction l as [|x l IH]; intros a; [reflexivity|].
  cbn [map fold_left].
  change (fillna PInf (Fin x)) with (Fin x).
  rewrite fminimum_finite, IH. reflexivity.
Qed.

Lemma nanmin_finite_tail d ds :
  nanmin (NaN :: Fin d :: map Fin ds) = Fin (fold_left Rmin ds d).
Proof.
  unfold nanmin. simpl. apply fold_fminimum_finite.
Qed.

Lemma fold_Rmin_lower c l :
  forall a,
    c <= fold_left Rmin l a <-> c <= a /\ Forall (fun x => c <= x) l.
Proof.
  induction l as [|x l IH]; intros a; simpl.
  - split; [intros H; split; [trivial | constructor] | tauto].
  - rewrite IH. unfold Rmin. split.
    + intros [H1 H2]. destruct (Rle_dec a x).
      * split; [lra | constructor; [lra | trivial]].
      * split; [lra | constructor; [lra | trivial]].
    + intros [H1 H2]. inversion H2; subst. split; trivial.
      destruct (Rle_dec a x); lra.
Qed.

Lemma fold_Rmin_le l : forall a, fold_left Rmin l a <= a.
Proof.
  intros a. apply (fold_Rmin_lower (fold_left Rmin l a) l a). lra.
Qed.

(** Above a positive peak, no drawdown is negative exactly when the
    values never decrease. *)
Lemma rdrawdown_nonneg l :
  forall m, 0 < m ->
    Forall (fun x => 0 <= x) (rdrawdown_from m l) <->
    nondecreasing_from m l.
Proof.
  induction l as [|x l IH]; intros m Hm; simpl.
  - split; [trivial | constructor].
  - unfold Rmax. destruct (Rle_dec m x) as [Hle | Hgt].
    + rewrite <- (IH x) by lra. split.
      * intros H. inversion H; subst. tauto.
      * intros [_ H]. constructor; trivial.
        replace ((x - x) / x * 100) with 0 by (field; lra). lra.
    + split.
      * intros H. inversion H as [|? ? Hd _]; subst. exfalso.
        assert (Hneg : (x - m) / m * 100 < 0).
        { assert (0 < / m) by now apply Rinv_0_lt_compat.
          unfold Rdiv. nra. }
        lra.
      * intros [H _]. lra.
Qed.

Lemma nondecreasing_pairwise l :
  forall m,
    nondecreasing_from m l <->
    (forall s t a b, (s <= t)%nat ->
       nth_error (m :: l) s = Some a -> nth_error (m :: l) t = Some b ->
       a <= b).
Proof.
  induction l as [|x l IH]; intros m.
  - simpl. split; [|trivial]. intros _ s t a b _ Ha Hb.
    destruct s as [|s]; [|destruct s; discriminate].
    destruct t as [|t]; [|destruct t; discriminate].
    simpl in *. injection Ha as <-. injection Hb as <-. lra.
  - simpl nondecreasing_from. rewrite (IH x). split.
    + intros [Hmx Hp] s t a b Hst Ha Hb.
      destruct s as [|s]; destruct t as [|t]; try lia.
      * simpl in *. injection Ha as <-. injection Hb as <-. lra.
      * simpl in Ha. injection Ha as <-.
        assert (x <= b).
        { apply (Hp 0%nat t x b); [lia | reflexivity | exact Hb]. }
        lra.
      * apply (Hp s t a b); [lia | exact Ha | exact Hb].
    + intros H. split.
      * apply (H 0%nat 1%nat m x); [lia | reflexivity | reflexivity].
      * intros s t a b Hst Ha Hb.
        apply (H (S s) (S t) a b); [lia | exact Ha | exact Hb].
Qed.

(** The maximum drawdown of a column that is NaN at the first bar and
    finite afterwards, starting from a positive value. *)
Lemma max_drawdown_finite_tail v vs :
  0 < v ->
  exists d,
    nanmin (drawdown (NaN :: Fin v :: map Fin vs)) = Fin d /\ d <= 0 /\
    (d = 0 <-> nondecreasing_from v vs).
Proof.
  intros Hv. rewrite (drawdown_finite_tail v vs Hv), nanmin_finite_tail.
  replace ((v - v) / v * 100) with 0 by (field; lra).
  exists (fold_left Rmin (rdrawdown_from v vs) 0).
  pose proof (fold_Rmin_le (rdrawdown_from v vs) 0) as Hle.
  pose proof (fold_Rmin_lower 0 (rdrawdown_from v vs) 0) as Hlow.
  rewrite (rdrawdown_nonneg vs v Hv) in Hlow.
  repeat split; trivial.
  - intros Hd. apply Hlow. lra.
  - intros Hn. assert (0 <= fold_left Rmin (rdrawdown_from v vs) 0).
    { apply Hlow. split; [lra | trivial]. }
    lra.
Qed.

Lemma finite_entries l :
  Forall is_finite l -> l = map Fin (map real_part l).
Proof.
  induction 1 as [|a l [x ->] _ IH]; [reflexivity|].
  simpl. now rewrite <- IH.
Qed.

(** A column that is NaN at the first bar and finite at every other
    bar. *)
Lemma column_shape (col : column) :
  at_bar col 0 = Some NaN ->
  (forall k a, at_bar col (S k) = Some a -> is_finite a) ->
  exists xs, col = NaN :: map Fin xs.
Proof.
  intros H0 Hk. destruct col as [|a l]; [discriminate|].
  injection H0 as ->. exists (map real_part l). f_equal.
  apply finite_entries, Forall_forall. intros a Ha.
  apply In_nth_error in Ha. destruct Ha as [k Ek]. now apply (Hk k).
Qed.

(** The first bar never carries a position: its averages are undefined
    unless the window is a single bar, and two single-bar averages are
    equal. *)
Lemma at_bar_rolling_mean_first w closes :
  closes <> [] ->
  at_bar (rolling_mean w closes) 0 =
  Some (if (w =? 1)%nat then Fin (Rsum (slice closes 0 1) / INR 1) else NaN).
Proof.
  intros Hne.
  assert (Hlen : (0 < length closes)%nat).
  { destruct closes; [congruence | simpl; lia]. }
  destruct w as [|[|w]].
  - now apply at_bar_rolling_mean_zero.
  - rewrite at_bar_rolling_mean by (trivial; lia). reflexivity.
  - rewrite at_bar_rolling_mean by (trivial; lia). reflexivity.
Qed.

Lemma Signal_first self :
  Close (data self) <> [] ->
  at_bar (Signal (data (calculate_signals self))) 0 = Some 0%Z.
Proof.
  intros Hne.
  destruct (at_bar_signal_column (length (Close (data self)))
              (rolling_mean (short_window self) (Close (data self)))
              (rolling_mean (long_window self) (Close (data self))) 0)
    as (a & b & Ea & Eb & Es);
    try apply length_rolling_mean.
  { destruct (Close (data self)); [congruence | simpl; lia]. }
  cbn [calculate_signals data with_data Signal]. rewrite Es. f_equal.
  rewrite at_bar_rolling_mean_first in Ea, Eb by assumption.
  injection Ea as <-. injection Eb as <-. unfold signal_of, fgt.
  destruct (short_window self =? 1)%nat, (long_window self =? 1)%nat;
    now rewrite ?flt_irrefl, ?flt_nan_l, ?flt_nan_r.
Qed.

(** ** The frame after [calculate_signals] and [backtest] *)

Lemma calculate_metrics_inv s m :
  calculate_metrics s = Ok m ->
  exists bh_final st_final,
    iloc_last (Buy_Hold_Value (data s)) = Some bh_final /\
    iloc_last (Strategy_Value (data s)) = Some st_final /\
    years_of s <> 0 /\
    m = metrics_at (data s) (initial_capital s) (years_of s)
          bh_final st_final.
Proof.
  unfold calculate_metrics. intros H.
  destruct (iloc_last (Buy_Hold_Value (data s))) as [bh|]; [|discriminate].
  destruct (iloc_last (Strategy_Value (data s))) as [st|]; [|discriminate].
  destruct (Req_dec_T (years_of s) 0) as [Hy | Hy]; [discriminate|].
  injection H as <-. now exists bh, st.
Qed.

Lemma iloc_last_defined col :
  col <> [] -> exists a, iloc_last col = Some a.
Proof. destruct col; [congruence | intros _; eexists; reflexivity]. Qed.

Lemma calculate_metrics_ok s :
  Buy_Hold_Value (data s) <> [] -> Strategy_Value (data s) <> [] ->
  years_of s <> 0 ->
  exists m, calculate_metrics s = Ok m.
Proof.
  intros Hb Hs Hy. unfold calculate_metrics.
  destruct (iloc_last_defined _ Hb) as [bh ->].
  destruct (iloc_last_defined _ Hs) as [st ->].
  destruct (Req_dec_T (years_of s) 0); [contradiction | eauto].
Qed.

Lemma firstn_two {A : Type} (l : list A) a b :
  at_bar l 0 = Some a -> at_bar l 1 = Some b -> firstn 2 l = [a; b].
Proof.
  destruct l as [|x [|y l]]; try discriminate.
  intros H0 H1. injection H0 as ->. injection H1 as ->. reflexivity.
Qed.

Section AfterSignals.
Variable self : MovingAverageCrossover.
Let s1 := calculate_signals self.
Let closes := Close (data self).

Hypothesis closes_positive : positive_closes self.
Hypothesis two_bars : (2 <= length closes)%nat.

Let closes_nonempty : closes <> [].
Proof. destruct closes; [simpl in two_bars; lia | discriminate]. Qed.

Let s1_positive : positive_closes s1.
Proof. exact closes_positive. Qed.

Let s1_length : length (Signal (data s1)) = length (Close (data s1)).
Proof. exact (length_Signal_calculate_signals self). Qed.

(** The first strategy return that is defined is zero, because no
    position is held after the first bar. *)
Lemma Strategy_Return_second :
  at_bar (Strategy_Return (data (backtest s1))) 1 = Some (Fin 0).
Proof.
  destruct (Strategy_Return_finite s1 0 s1_positive s1_length two_bars)
    as (r & sg & _ & Es & E).
  unfold s1 in Es. rewrite Signal_first in Es by exact closes_nonempty.
  injection Es as <-. rewrite E. do 2 f_equal. lra.
Qed.


Lemma Strategy_Value_first :
  at_bar (Strategy_Value (data (backtest s1))) 0 = Some NaN.
Proof.
  change (Strategy_Value (data (backtest s1)))
    with (map (fmul (Fin (initial_capital self)))
            (cumprod (map (fadd (Fin 1))
                        (Strategy_Return (data (backtest s1)))))).
  rewrite at_bar_map, (at_bar_cumprod_one_plus _ 0 NaN); [reflexivity|].
  apply Strategy_Return_first; [exact closes_nonempty | exact s1_length].
Qed.




Lemma Strategy_Return_later k a :
  at_bar (Strategy_Return (data (backtest s1))) (S k) = Some a ->
  is_finite a.
Proof.
  intros Ha.
  destruct (Strategy_Return_entries s1 (S k) a s1_positive s1_length Ha)
    as [-> | H]; [|exact H].
  assert (Hk : (S k < length closes)%nat).
  { assert (Hn : (S k < length (Strategy_Return (data (backtest s1))))%nat)
      by (apply nth_error_Some; unfold at_bar in Ha; congruence).
    rewrite (length_Strategy_Return s1 s1_length) in Hn. exact Hn. }
  destruct (Strategy_Return_finite s1 k s1_positive s1_length Hk)
    as (r & sg & _ & _ & Es).
  congruence.
Qed.

(** The strategy return column: NaN, then zero, then finite values. *)
Lemma Strategy_Return_shape :
  exists rs,
    Strategy_Return (data (backtest s1)) = NaN :: Fin 0 :: map Fin rs.
Proof.
  destruct (column_shape (Strategy_Return (data (backtest s1))))
    as [xs Exs].
  - apply Strategy_Return_first;
      [exact closes_nonempty | exact s1_length].
  - exact Strategy_Return_later.
  - pose proof Strategy_Return_second as H1. rewrite Exs in H1.
    destruct xs as [|x xs]; [discriminate|].
    injection H1 as ->. now exists xs.
Qed.
End AfterSignals.

Lemma at_bar_finite_tail v vs s a :
  at_bar (NaN :: Fin v :: map Fin vs) s = Some (Fin a) <->
  exists s', s = S s' /\ nth_error (v :: vs) s' = Some a.
Proof.
  split.
  - destruct s as [|s']; [discriminate|]. intros H. exists s'.
    split; trivial.
    change (at_bar (map Fin (v :: vs)) s' = Some (Fin a)) in H.
    rewrite at_bar_map in H. unfold at_bar in H.
    destruct (nth_error (v :: vs) s'); [|discriminate].
    simpl in H. congruence.
  - intros (s' & -> & H).
    change (at_bar (map Fin (v :: vs)) s' = Some (Fin a)).
    rewrite at_bar_map. unfold at_bar. now rewrite H.
Qed.




(** ** Sharpe ratio *)

Lemma fold_fadd_finite l :
  forall a, fold_left fadd (map Fin l) (Fin a) = Fin (fold_left Rplus l a).
Proof.
  induction l as [|x l IH]; intros a; [reflexivity|]. simpl. apply IH.
Qed.

Lemma filter_notna_finite l : filter notna (map Fin l) = map Fin l.
Proof. induction l as [|x l IH]; simpl; [|rewrite IH]; reflexivity. Qed.

Lemma count_valid_finite_tail xs :
  count_valid (NaN :: map Fin xs) = length xs.
Proof.
  unfold count_valid. simpl. now rewrite filter_notna_finite, length_map.
Qed.

Lemma fillna_finite v l : map (fillna v) (map Fin l) = map Fin l.
Proof. rewrite map_map. reflexivity. Qed.

Lemma fsum_fillna_finite_tail xs :
  fsum (map (fillna (Fin 0)) (NaN :: map Fin xs)) =
  Fin (fold_left Rplus xs (0 + 0)).
Proof.
  unfold fsum. cbn [map fold_left]. rewrite fillna_finite.
  change (fadd (Fin 0) (fillna (Fin 0) NaN)) with (Fin (0 + 0)).
  apply fold_fadd_finite.
Qed.

Lemma INR_positive n : (0 < n)%nat -> INR n <> 0.
Proof. intros H. apply not_0_INR. lia. Qed.

Lemma nanmean_finite_tail xs :
  (0 < length xs)%nat -> nanmean (NaN :: map Fin xs) = Fin (rmean xs).
Proof.
  intros H. unfold nanmean.
  rewrite count_valid_finite_tail, fsum_fillna_finite_tail.
  replace (0 <? length xs)%nat with true by (symmetry; now apply Nat.ltb_lt).
  apply fdiv_finite, INR_positive, H.
Qed.

Lemma nanvar_finite_tail xs :
  (2 <= length xs)%nat -> nanvar (NaN :: map Fin xs) = Fin (rvar xs).
Proof.
  intros H. unfold nanvar.
  rewrite count_valid_finite_tail, fsum_fillna_finite_tail.
  replace (length xs <=? 1)%nat with false
    by (symmetry; apply Nat.leb_gt; lia).
  rewrite fdiv_finite by (apply INR_positive; lia).
  fold (rmean xs). cbn [map isna]. rewrite map_map. cbn [isna fsub fmul].
  rewrite <- (map_map (fun x => (rmean xs - x) * (rmean xs - x)) Fin).
  unfold fsum. cbn [fold_left].
  change (fadd (Fin 0) (Fin 0)) with (Fin (0 + 0)).
  rewrite fold_fadd_finite.
  apply fdiv_finite, INR_positive. lia.
Qed.

Lemma nanvar_few_valid col :
  (count_valid col < 2)%nat -> nanvar col = NaN.
Proof.
  intros H. unfold nanvar.
  now replace (count_valid col <=? 1)%nat with true
    by (symmetry; apply Nat.leb_le; lia).
Qed.

Lemma fold_Rplus_ge l :
  Forall (fun x => 0 <= x) l -> forall a, a <= fold_left Rplus l a.
Proof.
  induction 1 as [|x l Hx _ IH]; intros a; simpl; [lra|].
  specialize (IH (a + x)). lra.
Qed.

Lemma fold_Rplus_zero l :
  Forall (fun x => 0 <= x) l ->
  forall a, 0 <= a -> fold_left Rplus l a = 0 ->
            a = 0 /\ Forall (fun x => x = 0) l.
Proof.
  induction 1 as [|x l Hx Hl IH]; intros a Ha Hs; simpl in Hs.
  - split; [exact Hs | constructor].
  - destruct (IH (a + x)) as [H0 Hall]; [lra | exact Hs |].
    split; [lra|]. constructor; [lra | exact Hall].
Qed.

Lemma rvar_nonneg xs : (2 <= length xs)%nat -> 0 <= rvar xs.
Proof.
  intros H. unfold rvar.
  assert (Hn : 0 < INR (length xs - 1)) by (apply lt_0_INR; lia).
  apply Rmult_le_pos; [|left; now apply Rinv_0_lt_compat].
  apply Rle_trans with (0 + 0); [lra|].
  apply fold_Rplus_ge, Forall_map, Forall_forall. intros x _.
  cbv beta. generalize (rmean xs - x). intros d. nra.
Qed.

(** A zero variance forces every value to equal the mean. *)
Lemma rvar_zero xs x :
  (2 <= length xs)%nat -> rvar xs = 0 -> In x xs -> x = rmean xs.
Proof.
  intros H Hv Hx. unfold rvar in Hv.
  assert (Hn : 0 < INR (length xs - 1)) by (apply lt_0_INR; lia).
  assert (Hs : fold_left Rplus
                 (map (fun x => (rmean xs - x) * (rmean xs - x)) xs)
                 (0 + 0) = 0).
  { apply Rmult_integral in Hv. destruct Hv as [Hv | Hv]; [exact Hv|].
    pose proof (Rinv_0_lt_compat _ Hn). lra. }
  apply fold_Rplus_zero in Hs; [| |lra].
  - destruct Hs as [_ Hall]. rewrite Forall_map, Forall_forall in Hall.
    specialize (Hall x Hx). cbv beta in Hall.
    assert (Hd : rmean xs - x = 0); [|lra].
    revert Hall. generalize (rmean xs - x). intros d Hd. nra.
  - apply Forall_map, Forall_forall. intros y _. cbv beta.
    generalize (rmean xs - y). intros d. nra.
Qed.

Lemma sharpe_few_valid col :
  (count_valid col < 2)%nat -> nanstd col = NaN /\ sharpe col = NaN.
Proof.
  intros H. unfold sharpe, nanstd. rewrite (nanvar_few_valid col H).
  split; [reflexivity|]. simpl. now destruct (nanmean col).
Qed.

(** The unguarded division at a zero deviation: NaN for a zero mean, an
    infinity with the sign of the mean otherwise. *)
Lemma sharpe_zero_deviation col :
  nanstd col = Fin 0 ->
  (nanmean col = Fin 0 -> sharpe col = NaN)
  /\ (forall mu, nanmean col = Fin mu -> 0 < mu -> sharpe col = PInf)
  /\ (forall mu, nanmean col = Fin mu -> mu < 0 -> sharpe col = NInf).
Proof.
  intros Hs. unfold sharpe. rewrite Hs.
  assert (Hq : 0 < sqrt 252) by (apply sqrt_lt_R0; lra).
  split; [|split].
  - intros ->. simpl. decide_reals. reflexivity.
  - intros mu -> Hmu. simpl. decide_reals. simpl. unfold scale_inf.
    destruct (Rlt_dec 0 (sqrt 252)); [reflexivity | contradiction].
  - intros mu -> Hmu. simpl. decide_reals. simpl. unfold scale_inf.
    destruct (Rlt_dec 0 (sqrt 252)); [reflexivity | contradiction].
Qed.

(** Mean and deviation of a column of two equal finite entries behind
    leading NaN entries. *)
Lemma constant_pair_stats (pre : column) a :
  pre = [NaN] \/ pre = [NaN; NaN] ->
  nanmean (pre ++ [Fin a; Fin a]) = Fin a /\
  nanstd (pre ++ [Fin a; Fin a]) = Fin 0.
Proof.
  intros [-> | ->]; split.
  - unfold nanmean, count_valid, fsum. simpl.
    destruct (Req_dec_T (1 + 1) 0); [lra|]. f_equal. field.
  - unfold nanstd, nanvar, count_valid, fsum. simpl.
    destruct (Req_dec_T (1 + 1) 0); [lra|].
    destruct (Req_dec_T 1 0); [lra|]. simpl.
    match goal with
    | |- context [Rlt_dec ?v 0] => replace v with 0 by (field; lra)
    end.
    destruct (Req_dec_T 1 0); [lra|]. simpl.
    destruct (Rlt_dec (0 / 1) 0); [lra|]. f_equal.
    replace (0 / 1) with 0 by field. apply sqrt_0.
  - unfold nanmean, count_valid, fsum. simpl.
    destruct (Req_dec_T (1 + 1) 0); [lra|]. f_equal. field.
  - unfold nanstd, nanvar, count_valid, fsum. simpl.
    destruct (Req_dec_T (1 + 1) 0); [lra|].
    destruct (Req_dec_T 1 0); [lra|]. simpl.
    match goal with
    | |- context [Rlt_dec ?v 0] => replace v with 0 by (field; lra)
    end.
    destruct (Req_dec_T 1 0); [lra|]. simpl.
    destruct (Rlt_dec (0 / 1) 0); [lra|]. f_equal.
    replace (0 / 1) with 0 by field. apply sqrt_0.
Qed.

(** A frame of a single bar has a single, undefined, strategy return. *)
Lemma Strategy_Return_single self c :
  Close (data self) = [c] ->
  Strategy_Return (data (backtest (calculate_signals self))) = [NaN].
Proof.
  intros Hc.
  pose proof (length_Signal_calculate_signals self) as Hlen.
  pose proof (length_Strategy_Return (calculate_signals self)) as Hl.
  rewrite Close_calculate_signals in Hl. specialize (Hl Hlen).
  pose proof (Strategy_Return_first (calculate_signals self)) as Hf.
  rewrite Close_calculate_signals in Hf.
  rewrite Hc in *. specialize (Hf ltac:(discriminate) Hlen).
  destruct (Strategy_Return (data (backtest (calculate_signals self))))
    as [|a [|b l]]; try discriminate.
  injection Hf as ->. reflexivity.
Qed.

Lemma run_ok closes self :
  closes <> [] -> years_of self <> 0 ->
  exists m, snd (run closes self) = Ok m.
Proof.
  intros Hne Hy. unfold run. cbn [snd].
  apply calculate_metrics_ok; [| |exact Hy].
  - intros E. apply (f_equal (@length float64)) in E. simpl in E.
    unfold cumprod in E.
    rewrite length_map, length_na_accum_func, length_map,
      length_pct_change, length_map in E.
    destruct closes; [congruence | discriminate].
  - intros E. apply (f_equal (@length float64)) in E.
    change (Strategy_Value _)
      with (map (fmul (Fin (initial_capital self)))
              (cumprod (map (fadd (Fin 1))
                 (Strategy_Return
                    (data (backtest (calculate_signals
                                       (download_data closes self)))))))) in E.
    unfold cumprod in E.
    rewrite length_map, length_na_accum_func, length_map,
      length_Strategy_Return in E
      by exact (length_Signal_calculate_signals (download_data closes self)).
    simpl in E. destruct closes; [congruence | discriminate].
Qed.

(** C7, as the code has it.  Whenever metrics are returned (a non-empty
    series and dates at least one whole day apart) nothing is raised for
    the Sharpe ratio of the strategy returns, and the ratio is the float
    division mean / deviation, without a guard, times sqrt 252.  With
    fewer than two returns the deviation and the ratio are NaN.  With a
    zero deviation the ratio is NaN only when the mean is zero too; with
    a positive mean it is +inf and with a negative mean -inf. *)
Theorem strategy_sharpe_on_zero_deviation (closes : list R)
  (self : MovingAverageCrossover) :
  closes <> [] -> years_of self <> 0 ->
  let returns := Strategy_Return (data (fst (run closes self))) in
  exists m,
    snd (run closes self) = Ok m
    /\ strategy_sharpe m =
         fmul (fdiv (nanmean returns) (nanstd returns)) (Fin (sqrt 252))
    /\ ((count_valid returns < 2)%nat ->
        nanstd returns = NaN /\ strategy_sharpe m = NaN)
    /\ (nanstd returns = Fin 0 ->
        (nanmean returns = Fin 0 -> strategy_sharpe m = NaN)
        /\ (forall mu, nanmean returns = Fin mu -> 0 < mu ->
                       strategy_sharpe m = PInf)
        /\ (forall mu, nanmean returns = Fin mu -> mu < 0 ->
                       strategy_sharpe m = NInf)).
Proof.
  intros Hne Hy returns.
  destruct (run_ok closes self Hne Hy) as [m Hm].
  exists m. split; [exact Hm|].
  unfold run in Hm. cbn [snd] in Hm.
  apply calculate_metrics_inv in Hm.
  destruct Hm as (bh & st & _ & _ & _ & ->).
  cbn [strategy_sharpe metrics_at].
  split; [reflexivity|]. split.
  - exact (sharpe_few_valid returns).
  - exact (sharpe_zero_deviation returns).
Qed.

(** The strategy returns on the closes 0, 1, 2, 4 with windows of one and
    two bars: the first return is infinite, so the second strategy
    return (infinity times the zero signal) is NaN, and the two returns
    left are both 1. *)
Lemma zero_close_returns :
  Strategy_Return (data (fst (run [0; 1; 2; 4] fixture_strategy))) =
  [NaN; NaN] ++ [Fin 1; Fin 1].
Proof.
  assert (Hd : exists x1 x2,
             Strategy_Return
               (data (fst (run [0; 1; 2; 4] fixture_strategy))) =
             [NaN; NaN; Fin x1; Fin x2] /\ x1 = 1 /\ x2 = 1).
  { cbn [run fst backtest calculate_signals download_data with_data data
         Signal Close Strategy_Return frame_of_closes fixture_strategy init
         short_window long_window].
    rewrite !rolling_mean_naive by lia.
    unfold naive_rolling_mean, naive_mean_at, slice, Rsum. simpl.
    unfold signal_column, loc_assign, pct_change, map2, fgt. simpl.
    decide_reals; simpl; unfold scale_inf; decide_reals;
      do 2 eexists; (split; [reflexivity|]); split; lra. }
  destruct Hd as (x1 & x2 & Hd & -> & ->). exact Hd.
Qed.

(** C7 as stated fails on the closes 0, 1, 2, 4: the strategy returns that
    count are 1 and 1, their deviation is zero, and the ratio reported is
    +inf, not an undefined value. *)
Lemma strategy_sharpe_infinite :
  let returns :=
    Strategy_Return (data (fst (run [0; 1; 2; 4] fixture_strategy))) in
  exists m,
    snd (run [0; 1; 2; 4] fixture_strategy) = Ok m /\
    nanstd returns = Fin 0 /\
    nanmean returns = Fin 1 /\
    strategy_sharpe m = PInf.
Proof.
  intros returns.
  destruct (constant_pair_stats [NaN; NaN] 1 (or_intror eq_refl))
    as [Hmean Hstd].
  rewrite <- zero_close_returns in Hmean, Hstd. fold returns in Hmean, Hstd.
  destruct (run_ok [0; 1; 2; 4] fixture_strategy) as [m Hm];
    [discriminate | exact fixture_years_nonzero |].
  exists m. split; [exact Hm|]. split; [exact Hstd|]. split; [exact Hmean|].
  unfold run in Hm. cbn [snd] in Hm. apply calculate_metrics_inv in Hm.
  destruct Hm as (bh & st & _ & _ & _ & ->).
  cbn [strategy_sharpe metrics_at].
  apply (proj1 (proj2 (sharpe_zero_deviation returns Hstd)) 1 Hmean). lra.
Qed.

(** The strategy returns on the flat closes 100, 100, 100. *)
Lemma flat_close_returns :
  Strategy_Return (data (fst (run [100; 100; 100] fixture_strategy))) =
  [NaN] ++ [Fin 0; Fin 0].
Proof.
  assert (Hd : exists x1 x2,
             Strategy_Return
               (data (fst (run [100; 100; 100] fixture_strategy))) =
             [NaN; Fin x1; Fin x2] /\ x1 = 0 /\ x2 = 0).
  { cbn [run fst backtest calculate_signals download_data with_data data
         Signal Close Strategy_Return frame_of_closes fixture_strategy init
         short_window long_window].
    rewrite !rolling_mean_naive by lia.
    unfold naive_rolling_mean, naive_mean_at, slice, Rsum. simpl.
    unfold signal_column, loc_assign, pct_change, map2, fgt. simpl.
    decide_reals; do 2 eexists; (split; [reflexivity|]); split; lra. }
  destruct Hd as (x1 & x2 & Hd & -> & ->). exact Hd.
Qed.

(** ** Annualized return *)

Lemma Int_part_one : Int_part 1 = 1%Z.
Proof. symmetry. apply Int_part_spec. lra. Qed.

Lemma is_odd_integer_one : is_odd_integer 1 = true.
Proof.
  unfold is_odd_integer, is_integer. rewrite Int_part_one.
  destruct (Req_dec_T 1 1); [reflexivity | lra].
Qed.

Lemma is_integer_one : is_integer 1 = true.
Proof.
  unfold is_integer. rewrite Int_part_one.
  destruct (Req_dec_T 1 1); [reflexivity | lra].
Qed.

(** Raising to the power 1 changes nothing, whatever the base. *)
Lemma fpow_one a : fpow a 1 = a.
Proof.
  unfold fpow. destruct (Req_dec_T 1 0) as [E | _]; [lra|].
  rewrite is_integer_one, is_odd_integer_one.
  destruct a as [x | | |]; trivial.
  - destruct (Rlt_dec 0 x) as [Hp | Hp].
    + now rewrite Rpower_1.
    + destruct (Req_dec_T x 0) as [-> | Hz].
      * now destruct (Rlt_dec 0 1); [|lra].
      * rewrite Rpower_1 by lra. f_equal. lra.
  - now destruct (Rlt_dec 0 1); [|lra].
  - now destruct (Rlt_dec 0 1); [|lra].
Qed.

Lemma annual_return_one_year final cap :
  annual_return final cap 1 = total_return final cap.
Proof.
  unfold annual_return, total_return.
  replace (1 / 1) with 1 by field. now rewrite fpow_one.
Qed.

(** [years] is a whole number of days over 365.25 and is never 1. *)
Lemma years_never_one self : years_of self <> 1.
Proof.
  unfold years_of. intros H.
  set (d := timedelta_days (start_date self) (end_date self)) in *.
  assert (H4 : IZR (4 * d) = IZR 1461).
  { rewrite mult_IZR. lra. }
  apply eq_IZR in H4. lia.
Qed.

(** C9.  With [years = 1] the annualized return of lines 92-93 equals
    the total return of lines 87-88, for the buy-and-hold baseline and
    for the strategy. *)
Theorem annualized_equals_total_at_one_year (d : DataFrame) (cap : R)
  (bh_final st_final : float64) :
  let m := metrics_at d cap 1 bh_final st_final in
  buy_hold_annual m = buy_hold_total m
  /\ strategy_annual m = strategy_total m
  /\ buy_hold_annual m =
       fmul (fsub (fpow (fdiv bh_final (Fin cap)) (1 / 1)) (Fin 1)) (Fin 100)
  /\ buy_hold_total m =
       fmul (fsub (fdiv bh_final (Fin cap)) (Fin 1)) (Fin 100).
Proof.
  cbn [metrics_at buy_hold_annual buy_hold_total strategy_annual
       strategy_total].
  rewrite !annual_return_one_year. repeat split.
  symmetry. apply annual_return_one_year.
Qed.

(** ** Buy-and-hold baseline *)

Lemma Buy_Hold_Value_nonempty closes self :
  closes <> [] -> Buy_Hold_Value (data (fst (run closes self))) <> [].
Proof.
  intros Hne E. apply (f_equal (@length float64)) in E. simpl in E.
  unfold cumprod in E.
  rewrite length_map, length_na_accum_func, length_map,
    length_pct_change, length_map in E.
  destruct closes; [congruence | discriminate].
Qed.

Lemma Strategy_Value_nonempty closes self :
  closes <> [] -> Strategy_Value (data (fst (run closes self))) <> [].
Proof.
  intros Hne E. apply (f_equal (@length float64)) in E.
  unfold run in E. cbn [fst] in E.
  change (Strategy_Value _)
    with (map (fmul (Fin (initial_capital self)))
            (cumprod (map (fadd (Fin 1))
               (Strategy_Return
                  (data (backtest (calculate_signals
                                     (download_data closes self)))))))) in E.
  unfold cumprod in E.
  rewrite length_map, length_na_accum_func, length_map,
    length_Strategy_Return in E
    by exact (length_Signal_calculate_signals (download_data closes self)).
  simpl in E. destruct closes; [congruence | discriminate].
Qed.

(** C10.  Two runs over the same closes, capital and dates that differ
    only in the two windows have the same daily returns, the same
    buy-and-hold cumulative factors and values, and the same buy-and-hold
    total return, annualized return and Sharpe ratio (or raise the same
    exception). *)
Theorem buy_hold_independent_of_windows (now : Z) (sd ed : option Z)
  (cap : R) (closes : list R) (sw lw sw' lw' : nat) :
  let a := run closes (init now sd ed sw lw cap) in
  let b := run closes (init now sd ed sw' lw' cap) in
  Daily_Return (data (fst a)) = Daily_Return (data (fst b))
  /\ Buy_Hold_Return (data (fst a)) = Buy_Hold_Return (data (fst b))
  /\ Buy_Hold_Value (data (fst a)) = Buy_Hold_Value (data (fst b))
  /\ buy_hold_outputs (snd a) = buy_hold_outputs (snd b).
Proof.
  intros a b. repeat split.
  destruct closes as [|c l]; [reflexivity|].
  subst a b. unfold run. cbn [snd]. unfold calculate_metrics.
  pose proof (Strategy_Value_nonempty (c :: l) (init now sd ed sw lw cap))
    as Ha.
  pose proof (Strategy_Value_nonempty (c :: l) (init now sd ed sw' lw' cap))
    as Hb.
  destruct (iloc_last_defined _ (Ha ltac:(discriminate))) as [sa Esa].
  destruct (iloc_last_defined _ (Hb ltac:(discriminate))) as [sb Esb].
  unfold run in Esa, Esb. cbn [fst] in Esa, Esb. rewrite Esa, Esb.
  change (Buy_Hold_Value
            (data (backtest (calculate_signals
               (download_data (c :: l) (init now sd ed sw' lw' cap))))))
    with (Buy_Hold_Value
            (data (backtest (calculate_signals
               (download_data (c :: l) (init now sd ed sw lw cap)))))).
  destruct (iloc_last (Buy_Hold_Value _)) as [bh|]; [|reflexivity].
  change (years_of (backtest (calculate_signals
            (download_data (c :: l) (init now sd ed sw' lw' cap)))))
    with (years_of (backtest (calculate_signals
            (download_data (c :: l) (init now sd ed sw lw cap))))).
  destruct (Req_dec_T _ 0); reflexivity.
Qed.


(** ** The theorems at concrete inputs *)


Lemma strategy_return_lags_signal_witness :
  let self :=
    calculate_signals (download_data [100; 110; 121] fixture_strategy) in
  length (Signal (data self)) = length (Close (data self)) /\
  (1 <= 1 < length (Close (data self)))%nat /\
  exists c0 c1 sg,
    at_bar (Close (data self)) 0 = Some c0 /\
    at_bar (Close (data self)) 1 = Some c1 /\
    at_bar (Signal (data self)) 0 = Some sg /\
    at_bar (Strategy_Return (data (backtest self))) 1 =
      Some (fmul (fsub (fdiv (Fin c1) (Fin c0)) (Fin 1)) (of_int sg)).
Proof.
  intros self.
  assert (Hlen : length (Signal (data self)) = length (Close (data self)))
    by reflexivity.
  assert (Ht : (1 <= 1 < length (Close (data self)))%nat) by (simpl; lia).
  split; [exact Hlen|]. split; [exact Ht|].
  destruct (strategy_return_lags_signal self 1 Hlen Ht)
    as [(c0 & c1 & sg & H0 & H1 & Hs & _ & Hr) _].
  exists c0, c1, sg. repeat split; assumption.
Defined.

Lemma signal_is_tristate_witness :
  let self := download_data fixture_closes fixture_strategy in
  (2 < length (Close (data self)))%nat /\
  exists sg,
    at_bar (Signal (data (calculate_signals self))) 2 = Some sg /\
    (sg = (-1)%Z \/ sg = 0%Z \/ sg = 1%Z).
Proof.
  intros self.
  assert (Ht : (2 < length (Close (data self)))%nat) by (simpl; lia).
  split; [exact Ht|].
  destruct (signal_is_tristate self 2 Ht) as (a & b & sg & _ & _ & Hs & H & _).
  exists sg. split; assumption.
Defined.

Lemma cumulative_factor_is_running_product_witness :
  let self :=
    calculate_signals (download_data [100; 110; 121] fixture_strategy) in
  length (Signal (data self)) = length (Close (data self)) /\
  (2 < length (Close (data self)))%nat /\
  exists r s,
    at_bar (Daily_Return (data (backtest self))) 2 = Some r /\
    at_bar (Strategy_Return (data (backtest self))) 2 = Some s /\
    at_bar (Buy_Hold_Return (data (backtest self))) 2 =
      Some (if isna r then NaN
            else running_product (Daily_Return (data (backtest self))) 2) /\
    at_bar (Strategy_Cumulative (data (backtest self))) 2 =
      Some (if isna s then NaN
            else running_product (Strategy_Return (data (backtest self))) 2).
Proof.
  intros self.
  assert (Hlen : length (Signal (data self)) = length (Close (data self)))
    by reflexivity.
  assert (Ht : (2 < length (Close (data self)))%nat) by (simpl; lia).
  split; [exact Hlen|]. split; [exact Ht|].
  exact (proj2 (cumulative_factor_is_running_product self 2 Hlen Ht)).
Defined.


Lemma strategy_sharpe_on_zero_deviation_witness :
  let returns :=
    Strategy_Return (data (fst (run [100; 100; 100] fixture_strategy))) in
  [100; 100; 100] <> [] /\
  years_of fixture_strategy <> 0 /\
  nanstd returns = Fin 0 /\ nanmean returns = Fin 0 /\
  exists m,
    snd (run [100; 100; 100] fixture_strategy) = Ok m /\
    strategy_sharpe m = NaN.
Proof.
  intros returns.
  assert (Hne : [100; 100; 100] <> []) by discriminate.
  destruct (constant_pair_stats [NaN] 0 (or_introl eq_refl))
    as [Hmean Hstd].
  rewrite <- flat_close_returns in Hmean, Hstd. fold returns in Hmean, Hstd.
  split; [exact Hne|]. split; [exact fixture_years_nonzero|].
  split; [exact Hstd|]. split; [exact Hmean|].
  destruct (strategy_sharpe_on_zero_deviation [100; 100; 100]
              fixture_strategy Hne fixture_years_nonzero)
    as (m & Hm & _ & _ & H0).
  exists m. split; [exact Hm|].
  exact (proj1 (H0 Hstd) Hmean).
Defined.

Lemma value_is_capital_times_cumulative_witness :
  let self := calculate_signals
                (download_data [100; 110; 121] fixture_strategy) in
  length (Signal (data self)) = length (Close (data self)) /\
  (2 < length (Close (data self)))%nat /\
  exists b s,
    at_bar (Buy_Hold_Return (data (backtest self))) 2 = Some b /\
    at_bar (Strategy_Cumulative (data (backtest self))) 2 = Some s /\
    at_bar (Buy_Hold_Value (data (backtest self))) 2 =
      Some (fmul (Fin (initial_capital self)) b) /\
    at_bar (Strategy_Value (data (backtest self))) 2 =
      Some (fmul (Fin (initial_capital self)) s).
Proof.
  intros self.
  assert (Hlen : length (Signal (data self)) = length (Close (data self)))
    by reflexivity.
  assert (Ht : (2 < length (Close (data self)))%nat) by (simpl; lia).
  split; [exact Hlen|]. split; [exact Ht|].
  exact (value_is_capital_times_cumulative self 2 Hlen Ht).
Defined.

(** ** Two remarks on the formulas *)

(** The lag matters: with closes 100, 110, 121 and signals 0, 1, 1 the
    strategy return of the second bar is 0 (the signal of the first bar),
    not the daily return times the signal of the second bar. *)
Lemma lag_is_load_bearing :
  let self :=
    with_data fixture_strategy
      {| Close := [100; 110; 121]; SMA_short := []; SMA_long := [];
         Signal := [0; 1; 1]%Z; Position := [];
         Daily_Return := []; Strategy_Return := [];
         Buy_Hold_Return := []; Strategy_Cumulative := [];
         Buy_Hold_Value := []; Strategy_Value := [] |} in
  exists r x,
    at_bar (Daily_Return (data (backtest self))) 1 = Some (Fin r) /\
    at_bar (Strategy_Return (data (backtest self))) 1 = Some (Fin x) /\
    x = 0 /\ r * 1 <> x.
Proof.
  intros self. exists (110 / 100 - 1), ((110 / 100 - 1) * 0).
  repeat split.
  - unfold at_bar. simpl. decide_reals. reflexivity.
  - unfold at_bar. simpl. decide_reals. reflexivity.
  - lra.
  - lra.
Qed.

(** The division of the Sharpe ratio is not guarded: the buy-and-hold
    ratio, computed by the same formula on the daily returns, is +inf
    when the closes double at every bar (mean 1, deviation 0). *)
Lemma buyhold_sharpe_infinite :
  exists m,
    snd (run [1; 2; 4] fixture_strategy) = Ok m /\
    nanstd (Daily_Return (data (fst (run [1; 2; 4] fixture_strategy))))
      = Fin 0 /\
    buyhold_sharpe m = PInf.
Proof.
  destruct (run_ok [1; 2; 4] fixture_strategy) as [m Hm];
    [discriminate | exact fixture_years_nonzero |].
  exists m. split; [exact Hm|].
  unfold run in Hm. cbn [snd] in Hm. apply calculate_metrics_inv in Hm.
  destruct Hm as (bh & st & _ & _ & _ & ->).
  cbn [buyhold_sharpe metrics_at].
  assert (Hd : Daily_Return (data (fst (run [1; 2; 4] fixture_strategy))) =
               NaN :: map Fin [2 / 1 - 1; 4 / 2 - 1]).
  { simpl. unfold pct_change, map2. simpl. decide_reals. reflexivity. }
  unfold run in Hd. cbn [fst] in Hd. unfold run. cbn [fst]. rewrite Hd.
  assert (Hmean : rmean [2 / 1 - 1; 4 / 2 - 1] = 1).
  { unfold rmean. simpl. field. }
  assert (Hvar : rvar [2 / 1 - 1; 4 / 2 - 1] = 0).
  { unfold rvar. rewrite Hmean. simpl. field. }
  assert (Hstd : nanstd (NaN :: map Fin [2 / 1 - 1; 4 / 2 - 1]) = Fin 0).
  { unfold nanstd. rewrite nanvar_finite_tail by (simpl; lia).
    rewrite Hvar. simpl. decide_reals. now rewrite sqrt_0. }
  split; [exact Hstd|].
  unfold sharpe. rewrite Hstd, nanmean_finite_tail by (simpl; lia).
  rewrite Hmean. simpl fdiv. decide_reals.
  assert (Hs : 0 < sqrt 252) by (apply sqrt_lt_R0; lra).
  simpl. unfold scale_inf.
  destruct (Rlt_dec 0 (sqrt 252)); [reflexivity | lra].
Qed.

(** * Further properties of the program *)

(** ** What [run] raises *)

Lemma years_zero_iff self :
  years_of self = 0 <->
  timedelta_days (start_date self) (end_date self) = 0%Z.
Proof.
  unfold years_of. split.
  - intros H. apply eq_IZR. lra.
  - intros ->. lra.
Qed.

(** [run] raises IndexError exactly on an empty series, ZeroDivisionError
    exactly on a non-empty series whose dates are less than one day
    apart, and returns metrics in every other case. *)
Theorem run_raises (closes : list R) (self : MovingAverageCrossover) :
  (snd (run closes self) = Raise IndexError <-> closes = [])
  /\ (snd (run closes self) = Raise ZeroDivisionError <->
      closes <> [] /\
      timedelta_days (start_date self) (end_date self) = 0%Z)
  /\ ((exists m, snd (run closes self) = Ok m) <->
      closes <> [] /\
      timedelta_days (start_date self) (end_date self) <> 0%Z).
Proof.
  destruct closes as [|c l].
  - assert (E : snd (run [] self) = Raise IndexError) by reflexivity.
    rewrite E. split; [split; trivial|]. split.
    + split; [discriminate | intros [H _]; congruence].
    + split; [intros [m Hm]; discriminate | intros [H _]; congruence].
  - destruct (Z.eq_dec (timedelta_days (start_date self) (end_date self)) 0)
      as [Hz | Hz].
    + assert (E : snd (run (c :: l) self) = Raise ZeroDivisionError).
      { unfold run. cbn [snd]. unfold calculate_metrics.
        destruct (iloc_last_defined _
                    (Buy_Hold_Value_nonempty (c :: l) self
                       ltac:(discriminate))) as [bh Eb].
        destruct (iloc_last_defined _
                    (Strategy_Value_nonempty (c :: l) self
                       ltac:(discriminate))) as [st Es].
        unfold run in Eb, Es. cbn [fst] in Eb, Es. rewrite Eb, Es.
        destruct (Req_dec_T _ 0) as [_ | N]; [reflexivity|].
        exfalso. apply N. now apply years_zero_iff. }
      rewrite E. split; [split; discriminate|]. split.
      * split; [intros _; split; [discriminate | exact Hz] | trivial].
      * split; [intros [m Hm]; discriminate | intros [_ H]; contradiction].
    + destruct (run_ok (c :: l) self) as [m Hm]; [discriminate | |].
      { intros H. now apply years_zero_iff in H. }
      rewrite Hm. split; [split; discriminate|]. split.
      * split; [discriminate | intros [_ H]; contradiction].
      * split; [intros _; split; [discriminate | exact Hz] | eauto].
Qed.

(** ** The default dates of the constructor *)

Lemma default_days now ed sw lw cap :
  let self := init now None ed sw lw cap in
  timedelta_days (start_date self) (end_date self) = 1825%Z.
Proof.
  intros self. subst self. unfold init. cbn [start_date end_date].
  unfold timedelta_days.
  set (e := match ed with Some d => d | None => now end).
  replace (e - (e - 365 * 5 * microseconds_per_day))%Z
    with (1825 * microseconds_per_day)%Z by lia.
  apply Z.div_mul. discriminate.
Qed.

(** The constructor without a start date.  It raises OverflowError
    exactly when the end date (the current time when none is given) is
    less than 1825 days after the earliest datetime.  Otherwise the
    object spans 1825 days, a little less than five years
    (1825 / 365.25), and a run on a non-empty series returns metrics.
    With a start date the constructor never raises. *)
Theorem default_start_date_span (now : Z) (ed : option Z) (sw lw : nat)
  (cap : R) (closes : list R) :
  let e := match ed with None => now | Some d => d end in
  (__init__ now None ed sw lw cap = OverflowError <->
   (e < datetime_min + 1825 * microseconds_per_day)%Z)
  /\ ((datetime_min + 1825 * microseconds_per_day <= e)%Z ->
      exists self,
        __init__ now None ed sw lw cap = Constructed self /\
        end_date self = e /\
        timedelta_days (start_date self) (end_date self) = 1825%Z /\
        years_of self = 1825 / 365.25 /\
        4.99 < years_of self < 5 /\
        (closes <> [] -> exists m, snd (run closes self) = Ok m))
  /\ (forall sd, exists self,
        __init__ now (Some sd) ed sw lw cap = Constructed self /\
        start_date self = sd /\ end_date self = e).
Proof.
  intros e. unfold __init__. fold e.
  destruct (e - 365 * 5 * microseconds_per_day <? datetime_min)%Z eqn:E.
  - apply Z.ltb_lt in E. split; [|split].
    + split; [intros _; lia | reflexivity].
    + intros H. lia.
    + intros sd. eexists. split; [reflexivity|]. split; reflexivity.
  - apply Z.ltb_ge in E. split; [|split].
    + split; [discriminate | intros H; lia].
    + intros _. exists (init now None ed sw lw cap).
      assert (Hy : years_of (init now None ed sw lw cap) = 1825 / 365.25).
      { unfold years_of. now rewrite default_days. }
      split; [reflexivity|]. split; [reflexivity|].
      split; [apply default_days|]. split; [exact Hy|].
      split; [rewrite Hy; lra|].
      intros Hne. apply run_ok; [exact Hne|]. rewrite Hy. lra.
    + intros sd. eexists. split; [reflexivity|]. split; reflexivity.
Qed.

(** ** Column lengths *)

Lemma column_lengths_after_run (closes : list R)
  (self : MovingAverageCrossover) :
  let d := data (fst (run closes self)) in
  let n := length closes in
  Close d = closes
  /\ length (SMA_short d) = n /\ length (SMA_long d) = n
  /\ length (Signal d) = n /\ length (Position d) = n
  /\ length (Daily_Return d) = n /\ length (Strategy_Return d) = n
  /\ length (Buy_Hold_Return d) = n /\ length (Strategy_Cumulative d) = n
  /\ length (Buy_Hold_Value d) = n /\ length (Strategy_Value d) = n.
Proof.
  intros d n. subst d n. unfold run. cbn [fst].
  set (s1 := calculate_signals (download_data closes self)).
  assert (Hsig : length (Signal (data s1)) = length closes)
    by exact (length_Signal_calculate_signals (download_data closes self)).
  assert (Hsr : length (Strategy_Return (data (backtest s1))) =
                length closes)
    by exact (length_Strategy_Return s1 Hsig).
  assert (Hdr : length (Daily_Return (data (backtest s1))) = length closes)
    by exact (length_Daily_Return s1).
  split; [reflexivity|].
  split; [apply length_rolling_mean|].
  split; [apply length_rolling_mean|].
  split; [exact Hsig|].
  split.
  { change (Position (data (backtest s1))) with (diff (Signal (data s1))).
    unfold diff. rewrite length_map2, length_shift, length_map. lia. }
  split; [exact Hdr|]. split; [exact Hsr|].
  split.
  { change (Buy_Hold_Return (data (backtest s1)))
      with (cumprod (map (fadd (Fin 1)) (Daily_Return (data (backtest s1))))).
    unfold cumprod. now rewrite length_na_accum_func, length_map. }
  split.
  { change (Strategy_Cumulative (data (backtest s1)))
      with (cumprod (map (fadd (Fin 1))
                       (Strategy_Return (data (backtest s1))))).
    unfold cumprod. now rewrite length_na_accum_func, length_map. }
  split.
  { change (Buy_Hold_Value (data (backtest s1)))
      with (map (fmul (Fin (initial_capital self)))
              (cumprod (map (fadd (Fin 1))
                          (Daily_Return (data (backtest s1)))))).
    unfold cumprod. now rewrite length_map, length_na_accum_func, length_map. }
  change (Strategy_Value (data (backtest s1)))
    with (map (fmul (Fin (initial_capital self)))
            (cumprod (map (fadd (Fin 1))
                        (Strategy_Return (data (backtest s1)))))).
  unfold cumprod. now rewrite length_map, length_na_accum_func, length_map.
Qed.

(** After [run] every column of the frame has one entry per close. *)
Theorem run_column_lengths (closes : list R) (self : MovingAverageCrossover) :
  let d := data (fst (run closes self)) in
  let n := length closes in
  Close d = closes
  /\ length (SMA_short d) = n /\ length (SMA_long d) = n
  /\ length (Signal d) = n /\ length (Position d) = n
  /\ length (Daily_Return d) = n /\ length (Strategy_Return d) = n
  /\ length (Buy_Hold_Return d) = n /\ length (Strategy_Cumulative d) = n
  /\ length (Buy_Hold_Value d) = n /\ length (Strategy_Value d) = n.
Proof. exact (column_lengths_after_run closes self). Qed.

(** ** Position deltas and the plotted markers *)

Lemma at_bar_diff_first sig :
  sig <> [] -> at_bar (diff sig) 0 = Some NaN.
Proof. destruct sig; [congruence | reflexivity]. Qed.

Lemma at_bar_diff_next sig k a b :
  at_bar sig (S k) = Some a -> at_bar sig k = Some b ->
  at_bar (diff sig) (S k) = Some (Fin (IZR a - IZR b)).
Proof.
  intros Ha Hb. unfold diff.
  assert (Hk : (S k < length sig)%nat).
  { apply nth_error_Some. unfold at_bar in Ha. congruence. }
  rewrite at_bar_map2, at_bar_shift_next by (rewrite length_map; lia).
  now rewrite !at_bar_map, Ha, Hb.
Qed.

Lemma Signal_range self t sg :
  at_bar (Signal (data (calculate_signals self))) t = Some sg ->
  sg = (-1)%Z \/ sg = 0%Z \/ sg = 1%Z.
Proof.
  intros Hs.
  assert (Ht : (t < length (Close (data self)))%nat).
  { rewrite <- length_Signal_calculate_signals. apply nth_error_Some.
    unfold at_bar in Hs. congruence. }
  destruct (at_bar_signal_column (length (Close (data self)))
              (rolling_mean (short_window self) (Close (data self)))
              (rolling_mean (long_window self) (Close (data self))) t)
    as (a & b & _ & _ & Es);
    try apply length_rolling_mean; trivial.
  cbn [calculate_signals data with_data Signal] in Hs.
  rewrite Es in Hs. injection Hs as <-. unfold signal_of, fgt.
  destruct (flt a b), (flt b a); auto.
Qed.

(** The position delta is NaN at the first bar; at every later bar it is
    the whole number [signal[t] - signal[t-1]], between -2 and 2. *)
Theorem position_delta_values (self : MovingAverageCrossover) (t : nat) :
  (t < length (Close (data self)))%nat ->
  let d := data (calculate_signals self) in
  (t = 0%nat -> at_bar (Position d) t = Some NaN)
  /\ ((1 <= t)%nat ->
      exists a b,
        at_bar (Signal d) t = Some a /\ at_bar (Signal d) (t - 1) = Some b /\
        at_bar (Position d) t = Some (Fin (IZR (a - b))) /\
        (-2 <= a - b <= 2)%Z).
Proof.
  intros Ht d.
  assert (Hlen : length (Signal d) = length (Close (data self)))
    by exact (length_Signal_calculate_signals self).
  change (Position d) with (diff (Signal d)).
  split.
  - intros ->. apply at_bar_diff_first.
    destruct (Signal d); [simpl in Hlen; lia | discriminate].
  - intros H1. destruct t as [|k]; [lia|].
    replace (S k - 1)%nat with k by lia.
    destruct (at_bar_defined (Signal d) (S k)) as [a Ea]; [lia|].
    destruct (at_bar_defined (Signal d) k) as [b Eb]; [lia|].
    exists a, b. repeat split; trivial.
    + rewrite (at_bar_diff_next _ k a b Ea Eb). now rewrite minus_IZR.
    + destruct (Signal_range self _ _ Ea) as [-> | [-> | ->]];
        destruct (Signal_range self _ _ Eb) as [-> | [-> | ->]]; lia.
    + destruct (Signal_range self _ _ Ea) as [-> | [-> | ->]];
        destruct (Signal_range self _ _ Eb) as [-> | [-> | ->]]; lia.
Qed.

Lemma In_rows_where mask d t c :
  In (t, c) (rows_where mask d) <->
  at_bar mask t = Some true /\ at_bar (Close d) t = Some c.
Proof.
  unfold rows_where. rewrite in_map_iff. split.
  - intros ([m [i x]] & E & Hin). simpl in E. injection E as -> ->.
    apply filter_In in Hin. destruct Hin as [Hin Hm]. simpl in Hm. subst m.
    apply In_nth_error in Hin. destruct Hin as [k Hk].
    rewrite !nth_error_combine in Hk. unfold at_bar.
    destruct (nth_error mask k) as [m|] eqn:Em; [|discriminate].
    destruct (nth_error (seq 0 (length (Close d))) k) as [i|] eqn:Ei;
      [|discriminate].
    destruct (nth_error (Close d) k) as [x|] eqn:Ex; [|discriminate].
    injection Hk as -> -> ->.
    rewrite nth_error_seq in Ei.
    destruct (k <? length (Close d))%nat; [|discriminate].
    injection Ei as <-. simpl. now rewrite Em, Ex.
  - intros [Hm Hc]. exists (true, (t, c)). split; [reflexivity|].
    apply filter_In. split; [|reflexivity].
    apply (nth_error_In _ t). rewrite !nth_error_combine.
    unfold at_bar in Hm, Hc. rewrite Hm, Hc, nth_error_seq.
    assert (Ht : (t < length (Close d))%nat).
    { apply nth_error_Some. congruence. }
    apply Nat.ltb_lt in Ht. now rewrite Ht.
Qed.

Lemma feq_finite x y : feq (Fin x) (Fin y) = true <-> x = y.
Proof.
  simpl. destruct (Req_dec_T x y); split; trivial; try discriminate.
  contradiction.
Qed.

(** What the plot marks.  A bar is marked as a buy signal exactly when
    the signal goes from -1 at the bar before to +1 at this bar, and as a
    sell signal exactly when it goes from +1 to -1; the first bar is
    never marked, and a change that passes through 0 is not marked. *)
Theorem plotted_markers (self : MovingAverageCrossover) (t : nat) (c : R) :
  let s := calculate_signals self in
  (In (t, c) (buy_signals s) <->
   at_bar (Close (data self)) t = Some c /\ (1 <= t)%nat /\
   at_bar (Signal (data s)) (t - 1) = Some (-1)%Z /\
   at_bar (Signal (data s)) t = Some 1%Z)
  /\ (In (t, c) (sell_signals s) <->
      at_bar (Close (data self)) t = Some c /\ (1 <= t)%nat /\
      at_bar (Signal (data s)) (t - 1) = Some 1%Z /\
      at_bar (Signal (data s)) t = Some (-1)%Z).
Proof.
  intros s.
  assert (Hlen : length (Signal (data s)) = length (Close (data self)))
    by exact (length_Signal_calculate_signals self).
  assert (Hmark : forall v : Z,
    (v = 2 \/ v = -2)%Z ->
    (In (t, c)
       (rows_where (map (fun p => feq p (Fin (IZR v))) (Position (data s)))
          (data s)) <->
     at_bar (Close (data self)) t = Some c /\ (1 <= t)%nat /\
     exists a b, at_bar (Signal (data s)) (t - 1) = Some b /\
                 at_bar (Signal (data s)) t = Some a /\ (a - b = v)%Z)).
  { intros v Hv. rewrite In_rows_where, at_bar_map.
    change (Close (data s)) with (Close (data self)).
    change (Position (data s)) with (diff (Signal (data s))).
    split.
    - intros [Hm Hc]. split; [exact Hc|].
      assert (Ht : (t < length (Close (data self)))%nat).
      { apply nth_error_Some. unfold at_bar in Hc. congruence. }
      destruct t as [|k].
      + rewrite at_bar_diff_first in Hm; [discriminate|].
        destruct (Signal (data s)); [simpl in Hlen; lia | discriminate].
      + split; [lia|]. replace (S k - 1)%nat with k by lia.
        destruct (at_bar_defined (Signal (data s)) (S k)) as [a Ea]; [lia|].
        destruct (at_bar_defined (Signal (data s)) k) as [b Eb]; [lia|].
        exists a, b. repeat split; trivial.
        rewrite (at_bar_diff_next _ k a b Ea Eb) in Hm. simpl in Hm.
        injection Hm as Hm.
        destruct (Req_dec_T (IZR a - IZR b) (IZR v)) as [E|]; [|discriminate].
        rewrite <- minus_IZR in E. now apply eq_IZR.
    - intros (Hc & H1 & a & b & Eb & Ea & Hv'). split; [|exact Hc].
      destruct t as [|k]; [lia|]. replace (S k - 1)%nat with k in Eb by lia.
      rewrite (at_bar_diff_next _ k a b Ea Eb). simpl. f_equal.
      destruct (Req_dec_T (IZR a - IZR b) (IZR v)) as [|N]; [reflexivity|].
      exfalso. apply N. rewrite <- minus_IZR. now rewrite Hv'. }
  split.
  - unfold buy_signals. rewrite (Hmark 2%Z) by auto.
    split.
    + intros (Hc & H1 & a & b & Eb & Ea & Hv). repeat split; trivial.
      * destruct (Signal_range self _ _ Ea) as [-> | [-> | ->]];
          destruct (Signal_range self _ _ Eb) as [-> | [-> | ->]];
          try lia; exact Eb.
      * destruct (Signal_range self _ _ Ea) as [-> | [-> | ->]];
          destruct (Signal_range self _ _ Eb) as [-> | [-> | ->]];
          try lia; exact Ea.
    + intros (Hc & H1 & Eb & Ea). repeat split; trivial.
      exists 1%Z, (-1)%Z. repeat split; trivial.
  - unfold sell_signals. rewrite (Hmark (-2)%Z) by auto.
    split.
    + intros (Hc & H1 & a & b & Eb & Ea & Hv). repeat split; trivial.
      * destruct (Signal_range self _ _ Ea) as [-> | [-> | ->]];
          destruct (Signal_range self _ _ Eb) as [-> | [-> | ->]];
          try lia; exact Eb.
      * destruct (Signal_range self _ _ Ea) as [-> | [-> | ->]];
          destruct (Signal_range self _ _ Eb) as [-> | [-> | ->]];
          try lia; exact Ea.
    + intros (Hc & H1 & Eb & Ea). repeat split; trivial.
      exists (-1)%Z, 1%Z. repeat split; trivial.
Qed.

Lemma length_filter_combine {A : Type} (mask : list bool) (rest : list A) :
  length mask = length rest ->
  length (filter fst (combine mask rest)) =
  length (filter (fun b : bool => b) mask).
Proof.
  revert rest. induction mask as [|b mask IH]; intros [|x rest] H;
    try discriminate; [reflexivity|].
  simpl in H. simpl. destruct b; simpl; rewrite IH by lia; reflexivity.
Qed.

Lemma length_rows_where mask d :
  length mask = length (Close d) ->
  length (rows_where mask d) = length (filter (fun b : bool => b) mask).
Proof.
  intros H. unfold rows_where. rewrite length_map.
  apply length_filter_combine. now rewrite length_combine, length_seq, Nat.min_id.
Qed.

(** Per entry, a marker (delta = 2 or delta = -2) or a NaN is always
    counted by [!= 0], and an entry is at most one of the three. *)
Lemma markers_counted col :
  (length (filter (fun b : bool => b) (map (fun p => feq p (Fin 2)) col))
   + length (filter (fun b : bool => b) (map (fun p => feq p (Fin (-2))) col))
   + length (filter isna col)
   <= count_nonzero col)%nat.
Proof.
  induction col as [|p col IH]; [simpl; lia|].
  rewrite count_nonzero_cons. cbn [map filter].
  assert (Hp : ((if feq p (Fin 2) then 1 else 0)
                + (if feq p (Fin (-2)) then 1 else 0)
                + (if isna p then 1 else 0)
                <= (if fne p (Fin 0) then 1 else 0))%nat).
  { destruct p as [x | | |]; simpl; try lia.
    destruct (Req_dec_T x 2), (Req_dec_T x (-2)), (Req_dec_T x 0);
      simpl; try lia; lra. }
  destruct (feq p (Fin 2)), (feq p (Fin (-2))), (isna p),
    (fne p (Fin 0)); simpl in *; lia.
Qed.

(** The plot marks fewer events than the trade count reports: on a
    non-empty series the buy and sell markers together are at most
    [num_trades - 1]. *)
Theorem markers_below_trade_count (closes : list R)
  (self : MovingAverageCrossover) (m : Metrics) :
  closes <> [] -> snd (run closes self) = Ok m ->
  let s := fst (run closes self) in
  (length (buy_signals s) + length (sell_signals s) + 1 <= num_trades m)%nat.
Proof.
  intros Hne Hm s.
  destruct (column_lengths_after_run closes self)
    as (Hc & _ & _ & Hsig & Hpos & _).
  fold s in Hc, Hsig, Hpos.
  unfold buy_signals, sell_signals.
  rewrite !length_rows_where by (rewrite length_map, Hc; exact Hpos).
  unfold run in Hm. cbn [snd] in Hm. apply calculate_metrics_inv in Hm.
  destruct Hm as (bh & st & _ & _ & _ & ->). cbn [num_trades metrics_at].
  fold (fst (run closes self)). fold s.
  pose proof (markers_counted (Position (data s))) as Hcount.
  assert (Hnan : (1 <= length (filter isna (Position (data s))))%nat).
  { change (Position (data s)) with (diff (Signal (data s))).
    destruct (Signal (data s)) as [|x l] eqn:E.
    - simpl in Hsig. destruct closes; [congruence | discriminate].
    - change (diff (x :: l))
        with (NaN :: map2 fsub (map of_int l)
                       (removelast (map of_int (x :: l)))).
      simpl. lia. }
  change (Position
            (data (backtest (calculate_signals (download_data closes self)))))
    with (Position (data s)).
  lia.
Qed.

(** ** No look-ahead *)

Lemma at_bar_firstn {A : Type} (l : list A) n i :
  (i < n)%nat -> at_bar (firstn n l) i = at_bar l i.
Proof.
  intros H. unfold at_bar. rewrite nth_error_firstn.
  apply Nat.ltb_lt in H. now rewrite H.
Qed.

Lemma prefix_at {A : Type} (l l' : list A) t i :
  firstn (S t) l = firstn (S t) l' -> (i <= t)%nat ->
  at_bar l i = at_bar l' i.
Proof.
  intros H Hi.
  rewrite <- (at_bar_firstn l (S t) i), <- (at_bar_firstn l' (S t) i) by lia.
  now rewrite H.
Qed.

Lemma prefix_of_at {A : Type} (l l' : list A) t :
  (forall i, (i <= t)%nat -> at_bar l i = at_bar l' i) ->
  firstn (S t) l = firstn (S t) l'.
Proof.
  intros H. apply nth_error_ext. intros i.
  rewrite !nth_error_firstn. destruct (i <? S t)%nat eqn:E; [|reflexivity].
  apply Nat.ltb_lt in E. apply (H i). lia.
Qed.

Lemma slice_prefix (v v' : list R) s t :
  firstn (S t) v = firstn (S t) v' -> (s <= t + 1)%nat ->
  slice v s (t + 1) = slice v' s (t + 1).
Proof.
  intros H Hs. unfold slice. rewrite !firstn_skipn_comm.
  replace (s + (t + 1 - s))%nat with (S t) by lia. now rewrite H.
Qed.

Lemma at_bar_rolling_mean_any w values t :
  (t < length values)%nat ->
  at_bar (rolling_mean w values) t =
  Some (if (w =? 0)%nat then NaN else naive_mean_at w values t).
Proof.
  intros Ht. destruct w as [|w].
  - now apply at_bar_rolling_mean_zero.
  - apply at_bar_rolling_mean; [lia | exact Ht].
Qed.

Lemma rolling_mean_prefix w (v v' : list R) t :
  firstn (S t) v = firstn (S t) v' ->
  (t < length v)%nat -> (t < length v')%nat ->
  at_bar (rolling_mean w v) t = at_bar (rolling_mean w v') t.
Proof.
  intros H Ht Ht'. rewrite !at_bar_rolling_mean_any by assumption.
  destruct (w =? 0)%nat; [reflexivity|]. unfold naive_mean_at.
  destruct (t + 1 <? w)%nat; [reflexivity|].
  now rewrite (slice_prefix v v' (t + 1 - w) t H) by lia.
Qed.

Lemma Signal_prefix self self' t :
  short_window self = short_window self' ->
  long_window self = long_window self' ->
  firstn (S t) (Close (data self)) = firstn (S t) (Close (data self')) ->
  (t < length (Close (data self)))%nat ->
  (t < length (Close (data self')))%nat ->
  at_bar (Signal (data (calculate_signals self))) t =
  at_bar (Signal (data (calculate_signals self'))) t.
Proof.
  intros Hsw Hlw H Ht Ht'.
  destruct (at_bar_signal_column (length (Close (data self)))
              (rolling_mean (short_window self) (Close (data self)))
              (rolling_mean (long_window self) (Close (data self))) t)
    as (a & b & Ea & Eb & Es); try apply length_rolling_mean; trivial.
  destruct (at_bar_signal_column (length (Close (data self')))
              (rolling_mean (short_window self') (Close (data self')))
              (rolling_mean (long_window self') (Close (data self'))) t)
    as (a' & b' & Ea' & Eb' & Es'); try apply length_rolling_mean; trivial.
  cbn [calculate_signals data with_data Signal]. rewrite Es, Es'.
  rewrite (rolling_mean_prefix _ _ _ t H Ht Ht'), Hsw, Ea' in Ea.
  rewrite (rolling_mean_prefix _ _ _ t H Ht Ht'), Hlw, Eb' in Eb.
  congruence.
Qed.

Lemma firstn_prefix {A : Type} (l l' : list A) t i :
  firstn (S t) l = firstn (S t) l' -> (i <= t)%nat ->
  firstn (S i) l = firstn (S i) l'.
Proof.
  intros H Hi. apply prefix_of_at. intros j Hj.
  apply (prefix_at l l' t j H). lia.
Qed.

(** The frame at bar [t] is computed from the closes up to bar [t] only:
    two series that agree on their first [t + 1] closes give the same
    averages, signal, position delta, returns, cumulative factors and
    portfolio values at bar [t], whatever the later closes are. *)
Theorem no_look_ahead (closes closes' : list R)
  (self : MovingAverageCrossover) (t : nat) :
  (t < length closes)%nat -> (t < length closes')%nat ->
  firstn (S t) closes = firstn (S t) closes' ->
  let d := data (fst (run closes self)) in
  let d' := data (fst (run closes' self)) in
  at_bar (SMA_short d) t = at_bar (SMA_short d') t
  /\ at_bar (SMA_long d) t = at_bar (SMA_long d') t
  /\ at_bar (Signal d) t = at_bar (Signal d') t
  /\ at_bar (Position d) t = at_bar (Position d') t
  /\ at_bar (Daily_Return d) t = at_bar (Daily_Return d') t
  /\ at_bar (Strategy_Return d) t = at_bar (Strategy_Return d') t
  /\ at_bar (Buy_Hold_Return d) t = at_bar (Buy_Hold_Return d') t
  /\ at_bar (Strategy_Cumulative d) t = at_bar (Strategy_Cumulative d') t
  /\ at_bar (Buy_Hold_Value d) t = at_bar (Buy_Hold_Value d') t
  /\ at_bar (Strategy_Value d) t = at_bar (Strategy_Value d') t.
Proof.
  intros Ht Ht' H d d'. subst d d'. unfold run. cbn [fst].
  set (s0 := download_data closes self).
  set (s0' := download_data closes' self).
  set (s1 := calculate_signals s0). set (s1' := calculate_signals s0').
  assert (Hlen : length (Signal (data s1)) = length (Close (data s1)))
    by exact (length_Signal_calculate_signals s0).
  assert (Hlen' : length (Signal (data s1')) = length (Close (data s1')))
    by exact (length_Signal_calculate_signals s0').
  assert (Hsig : forall i, (i <= t)%nat ->
            at_bar (Signal (data s1)) i = at_bar (Signal (data s1')) i).
  { intros i Hi. apply (Signal_prefix s0 s0' i); try reflexivity.
    - exact (firstn_prefix closes closes' t i H Hi).
    - simpl. lia.
    - simpl. lia. }
  assert (Hcl : forall i, (i <= t)%nat -> at_bar closes i = at_bar closes' i)
    by (intros i Hi; now apply (prefix_at closes closes' t i H)).
  assert (Hdr : forall i, (i <= t)%nat ->
            at_bar (Daily_Return (data (backtest s1))) i =
            at_bar (Daily_Return (data (backtest s1'))) i).
  { intros [|k] Hi.
    - rewrite !Daily_Return_first; trivial.
      + simpl. destruct closes'; [simpl in Ht'; lia | discriminate].
      + simpl. destruct closes; [simpl in Ht; lia | discriminate].
    - destruct (Daily_Return_at s1 k) as (c0 & c1 & E0 & E1 & ->);
        [simpl; lia|].
      destruct (Daily_Return_at s1' k) as (c0' & c1' & E0' & E1' & ->);
        [simpl; lia|].
      simpl in E0, E1, E0', E1'.
      rewrite (Hcl k) in E0 by lia. rewrite (Hcl (S k)) in E1 by lia.
      congruence. }
  assert (Hsr : forall i, (i <= t)%nat ->
            at_bar (Strategy_Return (data (backtest s1))) i =
            at_bar (Strategy_Return (data (backtest s1'))) i).
  { intros [|k] Hi.
    - rewrite !Strategy_Return_first; trivial.
      + simpl. destruct closes'; [simpl in Ht'; lia | discriminate].
      + simpl. destruct closes; [simpl in Ht; lia | discriminate].
    - rewrite (Strategy_Return_at s1 k Hlen) by (simpl; lia).
      rewrite (Strategy_Return_at s1' k Hlen') by (simpl; lia).
      now rewrite (Hdr (S k) Hi), (Hsig k) by lia. }
  assert (Hcum : forall r r' : column,
            (t < length r)%nat -> (t < length r')%nat ->
            (forall i, (i <= t)%nat -> at_bar r i = at_bar r' i) ->
            at_bar (cumprod (map (fadd (Fin 1)) r)) t =
            at_bar (cumprod (map (fadd (Fin 1)) r')) t).
  { intros r r' Hr Hr' Hall.
    destruct (at_bar_defined r t Hr) as [a Ea].
    assert (Ea' : at_bar r' t = Some a) by (rewrite <- Hall; trivial).
    rewrite (at_bar_cumprod_one_plus r t a Ea),
      (at_bar_cumprod_one_plus r' t a Ea').
    unfold running_product. now rewrite (prefix_of_at r r' t Hall). }
  assert (Hbh : at_bar (Buy_Hold_Return (data (backtest s1))) t =
                at_bar (Buy_Hold_Return (data (backtest s1'))) t).
  { apply (Hcum (Daily_Return (data (backtest s1)))
                (Daily_Return (data (backtest s1')))); trivial.
    - rewrite length_Daily_Return. simpl. lia.
    - rewrite length_Daily_Return. simpl. lia. }
  assert (Hsc : at_bar (Strategy_Cumulative (data (backtest s1))) t =
                at_bar (Strategy_Cumulative (data (backtest s1'))) t).
  { apply (Hcum (Strategy_Return (data (backtest s1)))
                (Strategy_Return (data (backtest s1')))); trivial.
    - rewrite (length_Strategy_Return s1 Hlen). simpl. lia.
    - rewrite (length_Strategy_Return s1' Hlen'). simpl. lia. }
  split; [exact (rolling_mean_prefix _ closes closes' t H Ht Ht')|].
  split; [exact (rolling_mean_prefix _ closes closes' t H Ht Ht')|].
  split; [apply Hsig; lia|].
  split.
  { change (Position (data (backtest s1))) with (diff (Signal (data s1))).
    change (Position (data (backtest s1'))) with (diff (Signal (data s1'))).
    destruct t as [|k].
    - rewrite !at_bar_diff_first; trivial.
      + destruct (Signal (data s1')); [|discriminate].
        simpl in Hlen'. rewrite <- Hlen' in Ht'. simpl in Ht'. lia.
      + destruct (Signal (data s1)); [|discriminate].
        simpl in Hlen. rewrite <- Hlen in Ht. simpl in Ht. lia.
    - destruct (at_bar_defined (Signal (data s1)) (S k)) as [a Ea];
        [rewrite Hlen; simpl; lia|].
      destruct (at_bar_defined (Signal (data s1)) k) as [b Eb];
        [rewrite Hlen; simpl; lia|].
      rewrite (at_bar_diff_next _ k a b Ea Eb).
      rewrite (Hsig (S k)) in Ea by lia. rewrite (Hsig k) in Eb by lia.
      now rewrite (at_bar_diff_next _ k a b Ea Eb). }
  split; [apply Hdr; lia|]. split; [apply Hsr; lia|].
  split; [exact Hbh|]. split; [exact Hsc|].
  split.
  - change (Buy_Hold_Value (data (backtest s1)))
      with (map (fmul (Fin (initial_capital self)))
              (Buy_Hold_Return (data (backtest s1)))).
    change (Buy_Hold_Value (data (backtest s1')))
      with (map (fmul (Fin (initial_capital self)))
              (Buy_Hold_Return (data (backtest s1')))).
    now rewrite !at_bar_map, Hbh.
  - change (Strategy_Value (data (backtest s1)))
      with (map (fmul (Fin (initial_capital self)))
              (Strategy_Cumulative (data (backtest s1)))).
    change (Strategy_Value (data (backtest s1')))
      with (map (fmul (Fin (initial_capital self)))
              (Strategy_Cumulative (data (backtest s1')))).
    now rewrite !at_bar_map, Hsc.
Qed.

(** ** Series on which the strategy never takes a position *)

Lemma signal_column_zero n s l :
  length s = n -> length l = n ->
  (forall t a b, at_bar s t = Some a -> at_bar l t = Some b ->
                 signal_of a b = 0%Z) ->
  signal_column n s l = repeat 0%Z n.
Proof.
  intros Hs Hl H. apply nth_error_ext. intros t.
  destruct (Nat.lt_ge_cases t n) as [Ht | Ht].
  - destruct (at_bar_signal_column n s l t Hs Hl Ht)
      as (a & b & Ea & Eb & Es).
    unfold at_bar in Es. rewrite Es, nth_error_repeat by exact Ht.
    f_equal. now apply (H t).
  - transitivity (@None Z); [|symmetry]; apply nth_error_None.
    + now rewrite length_signal_column.
    + now rewrite repeat_length.
Qed.

Lemma signal_of_nan_l b : signal_of NaN b = 0%Z.
Proof. unfold signal_of, fgt. now rewrite flt_nan_l, flt_nan_r. Qed.

Lemma signal_of_nan_r a : signal_of a NaN = 0%Z.
Proof. unfold signal_of, fgt. now rewrite flt_nan_l, flt_nan_r. Qed.

Lemma signal_of_same a : signal_of a a = 0%Z.
Proof. unfold signal_of, fgt. now rewrite flt_irrefl. Qed.

Lemma rolling_mean_short_series w values t a :
  (length values < w)%nat ->
  at_bar (rolling_mean w values) t = Some a -> a = NaN.
Proof.
  intros Hw Ha.
  assert (Ht : (t < length values)%nat).
  { rewrite <- (length_rolling_mean w). apply nth_error_Some.
    unfold at_bar in Ha. congruence. }
  rewrite at_bar_rolling_mean in Ha by (trivial; lia).
  unfold naive_mean_at in Ha.
  replace (t + 1 <? w)%nat with true in Ha
    by (symmetry; apply Nat.ltb_lt; lia).
  congruence.
Qed.

Lemma rolling_mean_all_nan w values :
  (length values < w)%nat ->
  rolling_mean w values = repeat NaN (length values).
Proof.
  intros Hw. apply nth_error_ext. intros t.
  destruct (Nat.lt_ge_cases t (length values)) as [Ht | Ht].
  - destruct (at_bar_defined (rolling_mean w values) t) as [a Ea];
      [now rewrite length_rolling_mean|].
    unfold at_bar in Ea. rewrite Ea, nth_error_repeat by exact Ht.
    f_equal. exact (rolling_mean_short_series w values t a Hw Ea).
  - transitivity (@None float64); [|symmetry]; apply nth_error_None.
    + now rewrite length_rolling_mean.
    + now rewrite repeat_length.
Qed.

(** With two equal windows the two average columns are the same column,
    entry by entry, and the signal column is all zeros. *)
Theorem equal_windows_signal_zero (closes : list R)
  (self : MovingAverageCrossover) :
  short_window self = long_window self ->
  SMA_short (data (fst (run closes self))) =
    SMA_long (data (fst (run closes self)))
  /\ (forall t, at_bar (SMA_short (data (fst (run closes self)))) t =
                at_bar (SMA_long (data (fst (run closes self)))) t)
  /\ Signal (data (fst (run closes self))) = repeat 0%Z (length closes).
Proof.
  intros Hw. unfold run. cbn [fst backtest calculate_signals download_data
    with_data data Signal SMA_short SMA_long Close frame_of_closes
    short_window long_window].
  rewrite Hw. split; [reflexivity|]. split; [reflexivity|].
  apply signal_column_zero; try apply length_rolling_mean.
  intros t a b Ea Eb. rewrite Ea in Eb. injection Eb as <-.
  apply signal_of_same.
Qed.

(** With fewer bars than one of the two windows, the average of that
    window is NaN at every bar and the signal column is all zeros. *)
Theorem short_series_signal_zero (closes : list R)
  (self : MovingAverageCrossover) :
  (length closes < long_window self \/ length closes < short_window self)%nat ->
  ((length closes < long_window self)%nat ->
     SMA_long (data (fst (run closes self))) = repeat NaN (length closes))
  /\ ((length closes < short_window self)%nat ->
      SMA_short (data (fst (run closes self))) = repeat NaN (length closes))
  /\ Signal (data (fst (run closes self))) = repeat 0%Z (length closes).
Proof.
  intros Hw. unfold run. cbn [fst backtest calculate_signals download_data
    with_data data Signal SMA_short SMA_long Close frame_of_closes
    short_window long_window].
  split; [exact (rolling_mean_all_nan _ closes)|].
  split; [exact (rolling_mean_all_nan _ closes)|].
  apply signal_column_zero; try apply length_rolling_mean.
  intros t a b Ea Eb. destruct Hw as [Hw | Hw].
  - rewrite (rolling_mean_short_series _ _ _ _ Hw Eb).
    apply signal_of_nan_r.
  - rewrite (rolling_mean_short_series _ _ _ _ Hw Ea).
    apply signal_of_nan_l.
Qed.

(** While fewer than [short_window] bars have been observed the short
    average is NaN, and while fewer than [long_window] bars have been
    observed the long average is NaN. *)
Theorem moving_average_undefined_prefix (self : MovingAverageCrossover)
  (t : nat) :
  (t < length (Close (data self)))%nat ->
  ((t + 1 < short_window self)%nat ->
     at_bar (SMA_short (data (calculate_signals self))) t = Some NaN)
  /\ ((t + 1 < long_window self)%nat ->
      at_bar (SMA_long (data (calculate_signals self))) t = Some NaN).
Proof.
  intros Ht.
  assert (H : forall w, (t + 1 < w)%nat ->
            at_bar (rolling_mean w (Close (data self))) t = Some NaN).
  { intros w Hw. rewrite at_bar_rolling_mean by (trivial; lia).
    unfold naive_mean_at.
    now replace (t + 1 <? w)%nat with true
      by (symmetry; now apply Nat.ltb_lt). }
  split; intros Hw; exact (H _ Hw).
Qed.

Lemma firstn_snoc {A : Type} (l : list A) n a :
  at_bar l n = Some a -> firstn (S n) l = firstn n l ++ [a].
Proof.
  revert n. induction l as [|x l IH]; intros [|n] H; try discriminate.
  - injection H as ->. reflexivity.
  - cbn [firstn]. simpl app. f_equal. now apply IH.
Qed.

Lemma running_product_step returns k a :
  at_bar returns (S k) = Some a ->
  running_product returns (S k) =
  fmul (running_product returns k) (factor a).
Proof.
  intros H. unfold running_product.
  rewrite (firstn_snoc returns (S k) a H), map_app, fold_left_app.
  reflexivity.
Qed.

Lemma running_product_first returns a :
  at_bar returns 0 = Some a ->
  running_product returns 0 = fmul (Fin 1) (factor a).
Proof.
  intros H. unfold running_product.
  destruct returns as [|x l]; [discriminate|]. injection H as ->.
  reflexivity.
Qed.

Lemma iloc_last_at_bar (col : column) :
  col <> [] -> iloc_last col = at_bar col (length col - 1).
Proof.
  destruct col as [|a l]; [congruence|]. intros _.
  unfold iloc_last. revert a. induction l as [|b l IH]; intros a.
  - reflexivity.
  - change (last (a :: b :: l) NaN) with (last (b :: l) NaN).
    rewrite IH. simpl. now rewrite Nat.sub_0_r.
Qed.

Lemma signal_changes_zero n : signal_changes (repeat 0%Z n) = 0%nat.
Proof.
  destruct n as [|n]; [reflexivity|]. simpl.
  induction n as [|n IH]; [reflexivity | exact IH].
Qed.

(** A finite daily return times the lagged signal is a finite strategy
    return: no product of a finite number by -1, 0 or 1 leaves the finite
    numbers. *)
Lemma Strategy_Return_of_finite self k r :
  length (Signal (data self)) = length (Close (data self)) ->
  (S k < length (Close (data self)))%nat ->
  at_bar (Daily_Return (data (backtest self))) (S k) = Some (Fin r) ->
  exists sg,
    at_bar (Signal (data self)) k = Some sg /\
    at_bar (Strategy_Return (data (backtest self))) (S k) =
      Some (Fin (r * IZR sg)).
Proof.
  intros Hlen Hk Ed.
  destruct (at_bar_defined (Signal (data self)) k) as [sg Es]; [lia|].
  exists sg. split; [exact Es|].
  rewrite Strategy_Return_at, Ed, Es by assumption. reflexivity.
Qed.

Section FlatSignal.
Variable closes : list R.
Variable self : MovingAverageCrossover.
Let s := fst (run closes self).
Let cap := initial_capital self.

Hypothesis finite_returns :
  forall t r, (1 <= t)%nat ->
    at_bar (Daily_Return (data s)) t = Some r -> is_finite r.
Hypothesis two_bars : (2 <= length closes)%nat.
Hypothesis flat : Signal (data s) = repeat 0%Z (length closes).

Lemma flat_Strategy_Return_later k :
  (S k < length closes)%nat ->
  at_bar (Strategy_Return (data s)) (S k) = Some (Fin 0).
Proof.
  intros Hk.
  pose (s1 := calculate_signals (download_data closes self)).
  assert (Hlen : length (Signal (data s1)) = length (Close (data s1)))
    by exact (length_Signal_calculate_signals (download_data closes self)).
  destruct (at_bar_defined (Daily_Return (data s)) (S k)) as [r Er].
  { unfold s, run. cbn [fst]. now rewrite length_Daily_Return. }
  destruct (finite_returns (S k) r ltac:(lia) Er) as [x ->].
  destruct (Strategy_Return_of_finite s1 k x Hlen Hk Er) as (sg & Es & E).
  change (Signal (data s1)) with (Signal (data s)) in Es.
  rewrite flat in Es. unfold at_bar in Es.
  rewrite nth_error_repeat in Es by lia. injection Es as <-.
  change (Strategy_Return (data s))
    with (Strategy_Return (data (backtest s1))).
  rewrite E. do 2 f_equal. lra.
Qed.

Lemma flat_Strategy_Return i a :
  at_bar (Strategy_Return (data s)) i = Some a -> factor a = Fin 1.
Proof.
  intros Ha.
  pose (s1 := calculate_signals (download_data closes self)).
  assert (Hlen : length (Signal (data s1)) = length (Close (data s1)))
    by exact (length_Signal_calculate_signals (download_data closes self)).
  assert (Hi : (i < length closes)%nat).
  { assert (Hn : length (Strategy_Return (data s)) = length closes)
      by apply (column_lengths_after_run closes self).
    rewrite <- Hn. apply nth_error_Some. unfold at_bar in Ha.
    congruence. }
  destruct i as [|k].
  - change (Strategy_Return (data s))
      with (Strategy_Return (data (backtest s1))) in Ha.
    rewrite Strategy_Return_first in Ha; trivial.
    + injection Ha as <-. reflexivity.
    + simpl. destruct closes; [simpl in Hi; lia | discriminate].
  - rewrite (flat_Strategy_Return_later k Hi) in Ha. injection Ha as <-.
    unfold factor. simpl. f_equal. lra.
Qed.

Lemma flat_running_product t :
  (t < length closes)%nat ->
  running_product (Strategy_Return (data s)) t = Fin 1.
Proof.
  intros Ht.
  assert (Hlen : length (Strategy_Return (data s)) = length closes)
    by apply (column_lengths_after_run closes self).
  induction t as [|k IH].
  - destruct (at_bar_defined (Strategy_Return (data s)) 0) as [a Ea];
      [lia|].
    rewrite (running_product_first _ a Ea), (flat_Strategy_Return 0 a Ea).
    simpl. f_equal. lra.
  - destruct (at_bar_defined (Strategy_Return (data s)) (S k)) as [a Ea];
      [lia|].
    rewrite (running_product_step _ k a Ea), IH by lia.
    rewrite (flat_Strategy_Return (S k) a Ea). simpl. f_equal. lra.
Qed.

Lemma flat_Strategy_Value t :
  (1 <= t < length closes)%nat ->
  at_bar (Strategy_Value (data s)) t = Some (Fin cap).
Proof.
  intros [H1 Ht]. destruct t as [|k]; [lia|].
  pose proof (flat_Strategy_Return_later k Ht) as E.
  change (Strategy_Value (data s))
    with (map (fmul (Fin cap))
            (cumprod (map (fadd (Fin 1)) (Strategy_Return (data s))))).
  rewrite at_bar_map, (at_bar_cumprod_one_plus _ _ _ E).
  rewrite (flat_running_product (S k) Ht). simpl. do 2 f_equal. lra.
Qed.

Lemma flat_Strategy_Value_shape :
  exists vs,
    Strategy_Value (data s) = NaN :: Fin cap :: map Fin vs /\
    forall k x, nth_error (cap :: vs) k = Some x -> x = cap.
Proof.
  assert (Hsvlen : length (Strategy_Value (data s)) = length closes)
    by apply (column_lengths_after_run closes self).
  destruct (column_shape (Strategy_Value (data s))) as [xs Exs].
  - apply (Strategy_Value_first (download_data closes self)). exact two_bars.
  - intros k a Ha.
    assert (Hk : (S k < length closes)%nat).
    { rewrite <- Hsvlen. apply nth_error_Some. unfold at_bar in Ha.
      congruence. }
    rewrite flat_Strategy_Value in Ha by lia. injection Ha as <-.
    now exists cap.
  - pose proof (flat_Strategy_Value 1 ltac:(lia)) as H1. rewrite Exs in H1.
    destruct xs as [|x xs]; [discriminate|].
    injection H1 as ->.
    change (NaN :: map Fin (cap :: xs))
      with (NaN :: Fin cap :: map Fin xs) in Exs.
    exists xs. split; [exact Exs|].
    intros k y Hy.
    assert (Hk : (S k < length closes)%nat).
    { rewrite <- Hsvlen, Exs. simpl. rewrite length_map.
      assert (Hn : nth_error (cap :: xs) k <> None) by congruence.
      apply nth_error_Some in Hn. simpl in Hn. lia. }
    assert (Hv := flat_Strategy_Value (S k) ltac:(lia)). rewrite Exs in Hv.
    assert (Hy' : at_bar (NaN :: Fin cap :: map Fin xs) (S k) =
                  Some (Fin y)).
    { apply at_bar_finite_tail. now exists k. }
    rewrite Hv in Hy'. now injection Hy'.
Qed.
End FlatSignal.

(** When the signal column is all zeros, the series has at least two bars,
    the initial capital is positive and every daily return after the first
    bar is a finite number, the strategy stays in cash: its value is the
    initial capital at every bar after the first, its total return is 0,
    its maximum drawdown is 0, and one trade is reported. *)
Theorem flat_signal_flat_strategy (closes : list R)
  (self : MovingAverageCrossover) (m : Metrics) :
  (forall t r, (1 <= t)%nat ->
     at_bar (Daily_Return (data (fst (run closes self)))) t = Some r ->
     is_finite r) ->
  (2 <= length closes)%nat ->
  0 < initial_capital self ->
  Signal (data (fst (run closes self))) = repeat 0%Z (length closes) ->
  snd (run closes self) = Ok m ->
  (forall t, (1 <= t < length closes)%nat ->
     at_bar (Strategy_Value (data (fst (run closes self)))) t =
     Some (Fin (initial_capital self)))
  /\ strategy_total m = Fin 0
  /\ max_drawdown m = Fin 0
  /\ num_trades m = 1%nat.
Proof.
  intros Hfin Hlen Hcap Hflat Hm.
  pose proof (flat_Strategy_Value closes self Hfin Hlen Hflat) as Hval.
  assert (Hne : closes <> []).
  { destruct closes; [simpl in Hlen; lia | discriminate]. }
  split; [exact Hval|].
  pose proof (num_trades_run closes self m Hne Hm) as Htr.
  rewrite Hflat, signal_changes_zero in Htr.
  unfold run in Hm. cbn [snd] in Hm. apply calculate_metrics_inv in Hm.
  destruct Hm as (bh & st & _ & Est & _ & ->).
  cbn [strategy_total max_drawdown metrics_at].
  change (backtest (calculate_signals (download_data closes self)))
    with (fst (run closes self)) in Est |- *.
  assert (Hsvlen : length (Strategy_Value (data (fst (run closes self)))) =
                   length closes)
    by apply (column_lengths_after_run closes self).
  rewrite iloc_last_at_bar in Est
    by (intros E; rewrite E in Hsvlen; simpl in Hsvlen; lia).
  rewrite Hsvlen, Hval in Est by lia. injection Est as <-.
  split; [|split; [|exact Htr]].
  - change (initial_capital (fst (run closes self)))
      with (initial_capital self).
    unfold total_return. rewrite fdiv_finite by lra. simpl. f_equal.
    field. lra.
  - destruct (flat_Strategy_Value_shape closes self Hfin Hlen Hflat)
      as (vs & Evs & Hin).
    rewrite Evs.
    destruct (max_drawdown_finite_tail (initial_capital self) vs Hcap)
      as (d & -> & _ & Hiff).
    f_equal. apply Hiff, nondecreasing_pairwise.
    intros i j a b Hij Ha Hb.
    rewrite (Hin i a Ha), (Hin j b Hb). lra.
Qed.

(** ** A series of a single bar *)

(** On a single close every return, cumulative factor and value is NaN,
    so all the return metrics, both Sharpe ratios and the maximum
    drawdown are NaN, while one trade is reported. *)
Theorem single_bar_metrics (c : R) (self : MovingAverageCrossover)
  (m : Metrics) :
  snd (run [c] self) = Ok m ->
  buy_hold_total m = NaN /\ strategy_total m = NaN
  /\ buy_hold_annual m = NaN /\ strategy_annual m = NaN
  /\ buyhold_sharpe m = NaN /\ strategy_sharpe m = NaN
  /\ max_drawdown m = NaN /\ num_trades m = 1%nat.
Proof.
  intros Hm.
  unfold run in Hm. cbn [snd] in Hm. apply calculate_metrics_inv in Hm.
  destruct Hm as (bh & st & Ebh & Est & Hy & ->).
  assert (Hsr : Strategy_Return
                  (data (backtest (calculate_signals
                                     (download_data [c] self)))) = [NaN])
    by exact (Strategy_Return_single (download_data [c] self) c eq_refl).
  change (Strategy_Value
            (data (backtest (calculate_signals (download_data [c] self)))))
    with (map (fmul (Fin (initial_capital self)))
            (cumprod (map (fadd (Fin 1))
               (Strategy_Return
                  (data (backtest (calculate_signals
                                     (download_data [c] self)))))))) in Est.
  rewrite Hsr in Est. injection Est as <-.
  injection Ebh as <-.
  cbn [buy_hold_total strategy_total buy_hold_annual strategy_annual
       buyhold_sharpe strategy_sharpe max_drawdown metrics_at].
  assert (Hexp : 1 / years_of
                       (backtest (calculate_signals
                                    (download_data [c] self))) <> 0).
  { unfold Rdiv. rewrite Rmult_1_l. now apply Rinv_neq_0_compat. }
  assert (Hpow : forall y, y <> 0 -> fpow NaN y = NaN).
  { intros y Hyz. unfold fpow. now destruct (Req_dec_T y 0). }
  repeat split.
  - unfold annual_return. simpl fdiv. now rewrite Hpow.
  - unfold annual_return. simpl fdiv. now rewrite Hpow.
Qed.

(** ** The first two bars *)

(** Whatever the windows, the signal of the first bar is 0; so when the
    daily return of the second bar is a finite number, the strategy return
    of the second bar is 0 and the strategy value there is the initial
    capital: a position can earn a return from the third bar on at the
    earliest. *)
Theorem no_position_before_third_bar (closes : list R)
  (self : MovingAverageCrossover) :
  (2 <= length closes)%nat ->
  let d := data (fst (run closes self)) in
  at_bar (Signal d) 0 = Some 0%Z
  /\ (forall r, at_bar (Daily_Return d) 1 = Some (Fin r) ->
       at_bar (Strategy_Return d) 1 = Some (Fin 0) /\
       at_bar (Strategy_Value d) 1 = Some (Fin (initial_capital self))).
Proof.
  intros Hlen d. subst d. unfold run. cbn [fst].
  set (s1 := calculate_signals (download_data closes self)).
  assert (Hne : Close (data (download_data closes self)) <> []).
  { simpl. destruct closes; [simpl in Hlen; lia | discriminate]. }
  assert (Hsig : at_bar (Signal (data s1)) 0 = Some 0%Z)
    by exact (Signal_first (download_data closes self) Hne).
  assert (Hl1 : length (Signal (data s1)) = length (Close (data s1)))
    by exact (length_Signal_calculate_signals (download_data closes self)).
  split; [exact Hsig|]. intros r Er.
  destruct (Strategy_Return_of_finite s1 0 r Hl1 Hlen Er) as (sg & Es & E).
  rewrite Hsig in Es. injection Es as <-.
  assert (E0 : at_bar (Strategy_Return (data (backtest s1))) 1 =
               Some (Fin 0)).
  { rewrite E. do 2 f_equal. lra. }
  split; [exact E0|].
  change (Strategy_Value (data (backtest s1)))
    with (map (fmul (Fin (initial_capital self)))
            (cumprod (map (fadd (Fin 1))
                        (Strategy_Return (data (backtest s1)))))).
  rewrite at_bar_map, (at_bar_cumprod_one_plus _ 1 (Fin 0) E0).
  unfold running_product.
  rewrite (firstn_two _ NaN (Fin 0));
    [| apply Strategy_Return_first; [exact Hne | exact Hl1] | exact E0].
  simpl. do 2 f_equal. lra.
Qed.

(** ** The strategy is unlevered *)

(** At every bar after the first whose daily return is a finite number,
    the strategy return is the daily return, its opposite, or zero. *)
Theorem strategy_return_unlevered (closes : list R)
  (self : MovingAverageCrossover) (t : nat) :
  (1 <= t < length closes)%nat ->
  let d := data (fst (run closes self)) in
  forall r, at_bar (Daily_Return d) t = Some (Fin r) ->
  exists x,
    at_bar (Strategy_Return d) t = Some (Fin x) /\
    (x = r \/ x = 0 \/ x = - r).
Proof.
  intros [H1 Ht] d r Er. subst d. unfold run in *. cbn [fst] in *.
  destruct t as [|k]; [lia|].
  set (s1 := calculate_signals (download_data closes self)) in *.
  assert (Hlen : length (Signal (data s1)) = length (Close (data s1)))
    by exact (length_Signal_calculate_signals (download_data closes self)).
  destruct (Strategy_Return_of_finite s1 k r Hlen Ht Er) as (sg & Es & E).
  exists (r * IZR sg). split; [exact E|].
  destruct (Signal_range (download_data closes self) k sg Es)
    as [-> | [-> | ->]]; lra.
Qed.

(** ** The further properties at concrete inputs *)

Lemma short_history_years_nonzero : years_of short_history_strategy <> 0.
Proof.
  unfold years_of, short_history_strategy. rewrite default_days. lra.
Defined.

Lemma position_delta_values_witness :
  let self := download_data fixture_closes fixture_strategy in
  (4 < length (Close (data self)))%nat /\
  exists a b,
    at_bar (Position (data (calculate_signals self))) 4 =
      Some (Fin (IZR (a - b))) /\ (-2 <= a - b <= 2)%Z.
Proof.
  intros self.
  assert (Ht : (4 < length (Close (data self)))%nat) by (simpl; lia).
  split; [exact Ht|].
  destruct (proj2 (position_delta_values self 4 Ht) ltac:(lia))
    as (a & b & _ & _ & Hp & Hr).
  exists a, b. split; assumption.
Defined.

Lemma markers_below_trade_count_witness :
  fixture_closes <> [] /\
  exists m,
    snd (run fixture_closes fixture_strategy) = Ok m /\
    (length (buy_signals (fst (run fixture_closes fixture_strategy)))
     + length (sell_signals (fst (run fixture_closes fixture_strategy))) + 1
     <= num_trades m)%nat.
Proof.
  assert (Hne : fixture_closes <> []) by discriminate.
  split; [exact Hne|].
  destruct (run_ok fixture_closes fixture_strategy Hne fixture_years_nonzero)
    as [m Hm].
  exists m. split; [exact Hm|].
  exact (markers_below_trade_count fixture_closes fixture_strategy m Hne Hm).
Defined.

Lemma no_look_ahead_witness :
  (1 < length [100; 110; 121])%nat /\ (1 < length [100; 110; 90; 95])%nat /\
  firstn 2 [100; 110; 121] = firstn 2 [100; 110; 90; 95] /\
  at_bar (Strategy_Value (data (fst (run [100; 110; 121] fixture_strategy))))
    1 =
  at_bar (Strategy_Value
            (data (fst (run [100; 110; 90; 95] fixture_strategy)))) 1.
Proof.
  assert (H1 : (1 < length [100; 110; 121])%nat) by (simpl; lia).
  assert (H2 : (1 < length [100; 110; 90; 95])%nat) by (simpl; lia).
  assert (H3 : firstn 2 [100; 110; 121] = firstn 2 [100; 110; 90; 95])
    by reflexivity.
  split; [exact H1|]. split; [exact H2|]. split; [exact H3|].
  apply (no_look_ahead [100; 110; 121] [100; 110; 90; 95] fixture_strategy 1
           H1 H2 H3).
Defined.

Lemma equal_windows_signal_zero_witness :
  let self := init 0 None None 2 2 1000 in
  short_window self = long_window self /\
  SMA_short (data (fst (run [100; 110; 121] self))) =
    SMA_long (data (fst (run [100; 110; 121] self))) /\
  Signal (data (fst (run [100; 110; 121] self))) = [0; 0; 0]%Z.
Proof.
  intros self. split; [reflexivity|].
  destruct (equal_windows_signal_zero [100; 110; 121] self eq_refl)
    as (H1 & _ & H2).
  split; [exact H1 | exact H2].
Defined.

Lemma short_series_signal_zero_witness :
  (length [100; 110; 121] < long_window short_history_strategy \/
   length [100; 110; 121] < short_window short_history_strategy)%nat /\
  SMA_long (data (fst (run [100; 110; 121] short_history_strategy))) =
    [NaN; NaN; NaN] /\
  Signal (data (fst (run [100; 110; 121] short_history_strategy))) =
    [0; 0; 0]%Z.
Proof.
  assert (Hl : (length [100; 110; 121] < long_window short_history_strategy)
               %nat) by (simpl; lia).
  split; [left; exact Hl|].
  destruct (short_series_signal_zero [100; 110; 121] short_history_strategy
              (or_introl Hl)) as (H1 & _ & H2).
  split; [exact (H1 Hl) | exact H2].
Defined.

Lemma moving_average_undefined_prefix_witness :
  let self := download_data fixture_closes fixture_strategy in
  (0 < length (Close (data self)))%nat /\
  (0 + 1 < long_window self)%nat /\
  at_bar (SMA_long (data (calculate_signals self))) 0 = Some NaN.
Proof.
  intros self.
  assert (Ht : (0 < length (Close (data self)))%nat) by (simpl; lia).
  assert (Hw : (0 + 1 < long_window self)%nat) by (simpl; lia).
  split; [exact Ht|]. split; [exact Hw|].
  exact (proj2 (moving_average_undefined_prefix self 0 Ht) Hw).
Defined.

Lemma finite_returns_three :
  forall t r, (1 <= t)%nat ->
    at_bar (Daily_Return
              (data (fst (run [100; 110; 121] short_history_strategy)))) t =
      Some r ->
    is_finite r.
Proof.
  intros t r Ht H. unfold at_bar in H.
  destruct t as [|[|[|t]]]; simpl in H;
    [lia | | | destruct t; discriminate];
    injection H as <-; decide_reals; eexists; reflexivity.
Defined.

Lemma flat_signal_flat_strategy_witness :
  (2 <= length [100; 110; 121])%nat /\
  0 < initial_capital short_history_strategy /\
  Signal (data (fst (run [100; 110; 121] short_history_strategy))) =
    repeat 0%Z (length [100; 110; 121]) /\
  exists m,
    snd (run [100; 110; 121] short_history_strategy) = Ok m /\
    strategy_total m = Fin 0 /\ max_drawdown m = Fin 0 /\
    num_trades m = 1%nat.
Proof.
  assert (Hl : (2 <= length [100; 110; 121])%nat) by (simpl; lia).
  assert (Hc : 0 < initial_capital short_history_strategy) by (simpl; lra).
  assert (Hf : Signal (data (fst (run [100; 110; 121]
                                    short_history_strategy))) =
               repeat 0%Z (length [100; 110; 121])) by reflexivity.
  split; [exact Hl|]. split; [exact Hc|]. split; [exact Hf|].
  destruct (run_ok [100; 110; 121] short_history_strategy) as [m Hm];
    [discriminate | exact short_history_years_nonzero |].
  exists m. split; [exact Hm|].
  exact (proj2 (flat_signal_flat_strategy [100; 110; 121]
                  short_history_strategy m finite_returns_three Hl Hc Hf
                  Hm)).
Defined.

Lemma single_bar_metrics_witness :
  exists m,
    snd (run [100] fixture_strategy) = Ok m /\
    buy_hold_total m = NaN /\ num_trades m = 1%nat.
Proof.
  destruct (run_ok [100] fixture_strategy) as [m Hm];
    [discriminate | exact fixture_years_nonzero |].
  exists m. split; [exact Hm|].
  destruct (single_bar_metrics 100 fixture_strategy m Hm)
    as (H1 & _ & _ & _ & _ & _ & _ & H8).
  split; assumption.
Defined.

Lemma second_return_three :
  at_bar (Daily_Return (data (fst (run [100; 110; 121] fixture_strategy))))
    1 = Some (Fin (110 / 100 - 1)).
Proof. unfold at_bar. simpl. decide_reals. reflexivity. Defined.

Lemma third_return_three :
  at_bar (Daily_Return (data (fst (run [100; 110; 121] fixture_strategy))))
    2 = Some (Fin (121 / 110 - 1)).
Proof. unfold at_bar. simpl. decide_reals. reflexivity. Defined.

Lemma no_position_before_third_bar_witness :
  (2 <= length [100; 110; 121])%nat /\
  at_bar (Strategy_Return (data (fst (run [100; 110; 121] fixture_strategy))))
    1 = Some (Fin 0) /\
  at_bar (Strategy_Value (data (fst (run [100; 110; 121] fixture_strategy))))
    1 = Some (Fin (initial_capital fixture_strategy)).
Proof.
  assert (Hl : (2 <= length [100; 110; 121])%nat) by (simpl; lia).
  split; [exact Hl|].
  exact (proj2 (no_position_before_third_bar [100; 110; 121]
                  fixture_strategy Hl) _ second_return_three).
Defined.

Lemma strategy_return_unlevered_witness :
  (1 <= 2 < length [100; 110; 121])%nat /\
  exists x,
    at_bar (Strategy_Return
              (data (fst (run [100; 110; 121] fixture_strategy)))) 2 =
      Some (Fin x) /\
    (x = 121 / 110 - 1 \/ x = 0 \/ x = - (121 / 110 - 1)).
Proof.
  assert (Ht : (1 <= 2 < length [100; 110; 121])%nat) by (simpl; lia).
  split; [exact Ht|].
  exact (strategy_return_unlevered [100; 110; 121] fixture_strategy 2 Ht
           _ third_return_three).
Defined.
